(** * Smart Task Planner: the rule-based planning engine

    A shallow embedding of [app/services/local_ai_service.py]
    (class [LocalAIService]) and the properties its specification
    states about it.

    Conventions of the embedding
    - Python [str] is [string]; the text handled is ASCII, and
      [str.lower] is the ASCII lower-casing.
    - Python [int] is [Z] (unbounded), list positions are [nat].
    - A Python [dict] literal used as a record is a [Record]; a [dict]
      that is iterated in insertion order is an association list; a
      [dict] that is only looked up by key is a [gmap].
    - [list(set(l))] is [elements (list_to_set l)]: the members without
      duplicates, in an order the model does not promise anything about.
    - A function that can raise returns a [result]; [raise] carries the
      exception, whose [str(e)] is [exn_message].
    - The optional [timeline_weeks] argument is a dynamically typed
      value: [None], an [int] or a [str] (a malformed timeline). *)

From Stdlib Require Import ZArith String Ascii List Bool Lia DecimalString.
From stdpp Require Import gmap strings list.

Set Default Proof Using "Type".

(** ** Python strings *)

Module PyStr.

Definition lower_ascii (c : ascii) : ascii :=
  let n := nat_of_ascii c in
  if ((65 <=? n) && (n <=? 90))%nat then ascii_of_nat (n + 32) else c.

(** [s.lower()] *)
Fixpoint lower (s : string) : string :=
  match s with
  | EmptyString => EmptyString
  | String c s' => String (lower_ascii c) (lower s')
  end.

(** [sub in s] *)
Fixpoint str_in (sub s : string) : bool :=
  String.prefix sub s ||
  match s with
  | EmptyString => false
  | String _ s' => str_in sub s'
  end.

(** [any(word in text for word in words)] *)
Definition any_in (words : list string) (text : string) : bool :=
  existsb (fun word => str_in word text) words.

(** [s.replace(old, new)] for a non-empty [old]: occurrences are
    replaced from left to right and do not overlap.  [skip] counts the
    characters of an occurrence that are still to be dropped. *)
Fixpoint replace_from (old new s : string) (skip : nat) : string :=
  match s with
  | EmptyString => EmptyString
  | String c s' =>
      match skip with
      | S k => replace_from old new s' k
      | O =>
          if String.prefix old s
          then new +:+ replace_from old new s' (String.length old - 1)
          else String c (replace_from old new s' 0)
      end
  end.

Definition replace (old new s : string) : string := replace_from old new s 0.

(** [str(z)] for an [int] *)
Definition str_of_Z (z : Z) : string := NilZero.string_of_int (Z.to_int z).

(** [sep.join(parts)] *)
Fixpoint join (sep : string) (parts : list string) : string :=
  match parts with
  | [] => EmptyString
  | [p] => p
  | p :: rest => p +:+ sep +:+ join sep rest
  end.

End PyStr.

(** ** Exceptions and results *)

Inductive exn : Type :=
| TypeError (msg : string)
| OverflowError (msg : string)
| KeyError (msg : string).

(** [str(e)] *)
Definition exn_message (e : exn) : string :=
  match e with
  | TypeError msg | OverflowError msg | KeyError msg => msg
  end.

Inductive result (A : Type) : Type :=
| Return (a : A)
| Raise (e : exn).

Arguments Return {A} a.
Arguments Raise {A} e.

Definition bind {A B : Type} (r : result A) (k : A -> result B) : result B :=
  match r with
  | Return a => k a
  | Raise e => Raise e
  end.

Notation "'try!' x ':=' r 'in' k" := (bind r (fun x => k))
  (at level 10, x name, r at level 100, k at level 200).

(** ** Python numbers: the part of [int] and [float] the engine uses *)

Module PyNum.

Local Open Scope Z_scope.

(** A finite binary64 value [fl_m * 2 ^ fl_e]; the mantissa carries
    the sign and has at most 53 bits. *)
Record pyfloat : Type := PyFloat { fl_m : Z; fl_e : Z }.

(** Quotient [num / den] rounded to the nearest integer, ties to the
    even one ([den] positive, [num] not negative). *)
Definition round_half_even (num den : Z) : Z :=
  let q := num / den in
  let r := num mod den in
  if 2 * r <? den then q
  else if den <? 2 * r then q + 1
  else if Z.even q then q else q + 1.

(** [b * 2 ^ k <= a], for [k] of either sign *)
Definition ge_scaled (a b k : Z) : bool :=
  if 0 <=? k then b * 2 ^ k <=? a else b <=? a * 2 ^ (- k).

(** The binade of the exact quotient: [floor (log2 (a / b))] for
    positive [a] and [b]. *)
Definition binade (a b : Z) : Z :=
  let k := Z.log2 a - Z.log2 b in
  if ge_scaled a b k then k else k - 1.

(** The exact quotient of two positive integers rounded to binary64
    (53-bit mantissa, least exponent -1074), before the range check. *)
Definition round_quotient (a b : Z) : pyfloat :=
  let e := Z.max (binade a b - 52) (-1074) in
  let m := if 0 <=? e then round_half_even a (b * 2 ^ e)
           else round_half_even (a * 2 ^ (- e)) b in
  PyFloat m e.

(** The value is at least [2 ^ 1024], so it is not a binary64. *)
Definition too_large (x : pyfloat) : bool :=
  (0 <=? fl_e x) && (2 ^ 1024 <=? fl_m x * 2 ^ fl_e x).

(** [a / b] on two [int]s with [b] positive: the correctly rounded
    quotient, or [OverflowError]. *)
Definition int_truediv (a b : Z) : result pyfloat :=
  if a =? 0 then Return (PyFloat 0 0)
  else
    let x := round_quotient (Z.abs a) b in
    if too_large x
    then Raise (OverflowError "integer division result too large for a float")
    else Return (PyFloat (Z.sgn a * fl_m x) (fl_e x)).

(** [d > x] for an [int] [d] and a [float] [x]: Python compares the
    two exactly. *)
Definition int_gt_float (d : Z) (x : pyfloat) : bool :=
  if 0 <=? fl_e x then fl_m x * 2 ^ fl_e x <? d
  else fl_m x <? d * 2 ^ (- fl_e x).

End PyNum.

Import PyStr PyNum.


(** ** Data model *)

(** An entry of a catalog: [{"title": .., "duration": .., "priority": ..}] *)
Record archetype : Type := Archetype {
  a_title : string;
  a_duration : Z;
  a_priority : string
}.

(** A produced task: the dict built by [_customize_tasks] and by
    [_get_fallback_tasks]. *)
Record task : Type := Task {
  title : string;
  description : string;
  priority : string;
  estimated_duration_hours : Z;
  dependencies : list nat;
  due_date_offset_days : nat
}.

(** The dict returned by [generate_task_breakdown]. *)
Record breakdown : Type := Breakdown {
  reasoning : string;
  estimated_duration_days : Z;
  tasks : list task
}.

(** The values [timeline_weeks] can hold. *)
Inductive timeline : Type :=
| PyNone
| PyInt (z : Z)
| PyStr (s : string).

(** Truth value of a timeline in [if timeline_weeks:] *)
Definition truthy (tw : timeline) : bool :=
  match tw with
  | PyNone => false
  | PyInt z => negb (z =? 0)%Z
  | PyStr s => negb (String.eqb s "")
  end.

(** [context or ""] *)
Definition or_empty (context : option string) : string :=
  match context with
  | Some c => c
  | None => ""
  end.

(** ** The service *)

Module LocalAIService.

Local Open Scope Z_scope.

(** *** Static tables *)

Definition product_launch_tasks : list archetype :=
  [ Archetype "Market Research and Analysis" 16 "high";
    Archetype "Define Product Requirements" 12 "high";
    Archetype "Create Project Timeline" 4 "high";
    Archetype "Set up Development Environment" 8 "high";
    Archetype "Design User Interface" 20 "medium";
    Archetype "Implement Core Features" 40 "high";
    Archetype "Write Unit Tests" 16 "medium";
    Archetype "Integration Testing" 12 "medium";
    Archetype "User Acceptance Testing" 8 "medium";
    Archetype "Deploy to Production" 8 "high";
    Archetype "Create Documentation" 12 "low";
    Archetype "Marketing and Promotion" 16 "medium" ].

Definition learning_tasks : list archetype :=
  [ Archetype "Research Learning Resources" 4 "high";
    Archetype "Set Learning Goals" 2 "high";
    Archetype "Create Study Schedule" 2 "high";
    Archetype "Complete Basic Tutorials" 16 "high";
    Archetype "Practice with Small Projects" 24 "medium";
    Archetype "Join Learning Community" 4 "low";
    Archetype "Build Portfolio Project" 32 "medium";
    Archetype "Seek Feedback and Mentorship" 8 "medium";
    Archetype "Advanced Practice" 20 "medium";
    Archetype "Document Learning Journey" 4 "low" ].

Definition event_planning_tasks : list archetype :=
  [ Archetype "Define Event Objectives" 4 "high";
    Archetype "Set Budget and Timeline" 4 "high";
    Archetype "Choose Venue and Date" 8 "high";
    Archetype "Create Guest List" 4 "medium";
    Archetype "Send Invitations" 4 "medium";
    Archetype "Plan Activities and Agenda" 12 "medium";
    Archetype "Arrange Catering" 6 "medium";
    Archetype "Set up Equipment and Decorations" 8 "low";
    Archetype "Coordinate with Vendors" 6 "medium";
    Archetype "Final Preparations" 4 "high";
    Archetype "Execute Event" 8 "high";
    Archetype "Follow-up and Feedback" 4 "low" ].

Definition business_startup_tasks : list archetype :=
  [ Archetype "Market Research and Validation" 20 "high";
    Archetype "Create Business Plan" 16 "high";
    Archetype "Register Business Entity" 4 "high";
    Archetype "Set up Financial Systems" 8 "high";
    Archetype "Develop MVP (Minimum Viable Product)" 60 "high";
    Archetype "Build Brand Identity" 12 "medium";
    Archetype "Create Marketing Strategy" 16 "medium";
    Archetype "Launch Website" 20 "medium";
    Archetype "Find First Customers" 24 "high";
    Archetype "Gather Customer Feedback" 8 "medium";
    Archetype "Iterate and Improve" 20 "medium";
    Archetype "Scale Operations" 32 "low" ].

Definition mobile_app_tasks : list archetype :=
  [ Archetype "Define App Requirements" 8 "high";
    Archetype "Create Wireframes and Mockups" 16 "high";
    Archetype "Set up Development Environment" 6 "high";
    Archetype "Implement User Authentication" 12 "high";
    Archetype "Develop Core Features" 40 "high";
    Archetype "Integrate APIs and Backend" 20 "medium";
    Archetype "Implement UI/UX Design" 24 "medium";
    Archetype "Testing and Bug Fixes" 16 "medium";
    Archetype "Performance Optimization" 12 "medium";
    Archetype "Prepare for App Store" 8 "high";
    Archetype "Submit for Review" 2 "high";
    Archetype "Launch and Marketing" 16 "medium" ].

(** [_load_task_templates]: looked up by key only *)
Definition task_templates : gmap string (list archetype) :=
  list_to_map
    [ ("product_launch", product_launch_tasks);
      ("learning", learning_tasks);
      ("event_planning", event_planning_tasks);
      ("business_startup", business_startup_tasks);
      ("mobile_app", mobile_app_tasks) ].

(** [_load_priority_keywords]: iterated in insertion order *)
Definition priority_keywords : list (string * list string) :=
  [ ("high", ["urgent"; "critical"; "essential"; "immediate"; "launch";
              "deadline"; "core"; "main"; "primary"]);
    ("medium", ["important"; "secondary"; "support"; "enhancement";
                "feature"; "improvement"]);
    ("low", ["optional"; "nice-to-have"; "future"; "documentation";
             "cleanup"; "optimization"]) ].

(** *** Goal classification *)

Definition _analyze_goal_type (goal : string) (context : option string) : string :=
  let text := lower (goal +:+ " " +:+ or_empty context) in
  if any_in ["app"; "mobile"; "ios"; "android"; "react native"] text
  then "mobile_app"
  else if any_in ["learn"; "study"; "course"; "tutorial"; "skill"] text
  then "learning"
  else if any_in ["event"; "party"; "conference"; "meeting"; "gathering"] text
  then "event_planning"
  else if any_in ["business"; "startup"; "company"; "entrepreneur"] text
  then "business_startup"
  else if any_in ["launch"; "product"; "release"; "deploy"] text
  then "product_launch"
  else "product_launch".

(** *** Customization *)

Definition _customize_task_title (base_title goal : string)
    (context : option string) : string :=
  let goal_lower := lower goal in
  if str_in "app" goal_lower || str_in "mobile" goal_lower
  then replace "Product" "App" base_title
  else if str_in "website" goal_lower || str_in "web" goal_lower
  then replace "Product" "Website" base_title
  else if str_in "business" goal_lower
  then replace "Product" "Business" base_title
  else base_title.

(** The [descriptions] dict of [_generate_task_description], in
    insertion order: key, text before the goal, text after it. *)
Definition descriptions : list (string * (string * string)) :=
  [ ("Market Research", ("Research the target market for ",
                         " to understand user needs and competition."));
    ("Define Requirements", ("Define clear requirements and specifications for ", "."));
    ("Set up Environment", ("Set up the development environment and necessary tools for ", "."));
    ("Design", ("Create designs and mockups for ", " focusing on user experience."));
    ("Implement", ("Implement the core functionality for ", "."));
    ("Testing", ("Test ", " thoroughly to ensure quality and functionality."));
    ("Deploy", ("Deploy ", " to production environment."));
    ("Documentation", ("Create comprehensive documentation for ", "."));
    ("Marketing", ("Develop marketing strategy and materials for ", ".")) ].

Definition _generate_task_description (title goal : string) : string :=
  match List.find (fun kd => str_in (lower (fst kd)) (lower title)) descriptions with
  | Some (_, (before, after)) => before +:+ lower goal +:+ after
  | None => "Complete the " +:+ lower title +:+ " phase for " +:+ lower goal +:+ "."
  end.

(** [for priority, keywords in self.priority_keywords.items()] *)
Fixpoint scan_priority (table : list (string * list string)) (text : string)
    : option string :=
  match table with
  | [] => None
  | (priority, keywords) :: rest =>
      if any_in keywords text then Some priority else scan_priority rest text
  end.

Definition _determine_priority (title goal : string) (context : option string)
    : string :=
  let text := lower (title +:+ " " +:+ goal +:+ " " +:+ or_empty context) in
  match scan_priority priority_keywords text with
  | Some priority => priority
  | None => "medium"
  end.

(** Lines 181-186: the duration of one task under the timeline.  A
    [str] timeline is repeated 40 times by [*] and then fails in [/]. *)
Definition scale_duration (timeline_weeks : timeline) (count : nat)
    (duration : Z) : result Z :=
  if truthy timeline_weeks then
    match timeline_weeks with
    | PyInt weeks =>
        let max_hours := weeks * 40 in
        try! share := int_truediv max_hours (Z.of_nat count) in
        if int_gt_float duration share
        then Return (Z.max 4 (max_hours / Z.of_nat count))
        else Return duration
    | PyStr _ =>
        Raise (TypeError "unsupported operand type(s) for /: 'str' and 'int'")
    | PyNone => Return duration
    end
  else Return duration.

(** The loop of [_customize_tasks] from position [i] on; [count] is
    [len(base_tasks)]. *)
Fixpoint customize_from (count : nat) (goal : string) (context : option string)
    (timeline_weeks : timeline) (i : nat) (rest : list archetype)
    : result (list task) :=
  match rest with
  | [] => Return []
  | base :: rest' =>
      let title := _customize_task_title (a_title base) goal context in
      try! duration := scale_duration timeline_weeks count (a_duration base) in
      let priority := _determine_priority (a_title base) goal context in
      let customized_task :=
        Task title (_generate_task_description title goal) priority
             duration [] (i * 2)%nat in
      try! customized := customize_from count goal context timeline_weeks (S i) rest' in
      Return (customized_task :: customized)
  end.

Definition _customize_tasks (base_tasks : list archetype) (goal : string)
    (context : option string) (timeline_weeks : timeline) : result (list task) :=
  customize_from (length base_tasks) goal context timeline_weeks 0 base_tasks.

(** *** Dependencies *)

Definition set_dependencies (t : task) (deps : list nat) : task :=
  Task (title t) (description t) (priority t) (estimated_duration_hours t)
       deps (due_date_offset_days t).

(** [for j, prev_task in enumerate(prev): if p(prev_task): append(j)],
    with the enumeration starting at [j]. *)
Fixpoint indices_from (p : task -> bool) (j : nat) (prev : list task) : list nat :=
  match prev with
  | [] => []
  | prev_task :: rest =>
      if p prev_task then j :: indices_from p (S j) rest
      else indices_from p (S j) rest
  end.

Definition is_implementation (prev_task : task) : bool :=
  str_in "implement" (lower (title prev_task))
  || str_in "develop" (lower (title prev_task)).

Definition is_test (prev_task : task) : bool :=
  str_in "test" (lower (title prev_task)).

(** The body of the loop of [_add_dependencies] for the task [t] at
    position [i] of [tasks]: the value assigned to its
    ["dependencies"]. *)
Definition dependencies_at (tasks : list task) (i : nat) (t : task) : list nat :=
  let linear := if (0 <? i)%nat then [(i - 1)%nat] else [] in
  let task_title := lower (title t) in
  let dependencies :=
    if str_in "testing" task_title
    then linear ++ indices_from is_implementation 0 (take i tasks)
    else if str_in "deploy" task_title
    then linear ++ indices_from is_test 0 (take i tasks)
    else linear in
  elements (list_to_set dependencies : gset nat).

(** One iteration: the task at position [i] is updated in place. *)
Definition add_dependencies_step (tasks : list task) (i : nat) : list task :=
  match tasks !! i with
  | Some t => <[i := set_dependencies t (dependencies_at tasks i t)]> tasks
  | None => tasks
  end.

Definition _add_dependencies (tasks : list task) : list task :=
  foldl add_dependencies_step tasks (seq 0 (length tasks)).

(** *** Reasoning *)

(** [f"{timeline_weeks}"] *)
Definition format_timeline (timeline_weeks : timeline) : string :=
  match timeline_weeks with
  | PyNone => "None"
  | PyInt z => str_of_Z z
  | PyStr s => s
  end.

Definition _generate_reasoning (goal goal_type : string) (task_count : nat)
    (timeline_weeks : timeline) : string :=
  let reasoning_parts :=
    [ "Analyzed the goal '" +:+ goal +:+ "' and identified it as a "
        +:+ replace "_" " " goal_type +:+ " project.";
      "Generated " +:+ str_of_Z (Z.of_nat task_count)
        +:+ " actionable tasks based on best practices for this type of project." ] in
  let reasoning_parts :=
    if truthy timeline_weeks
    then reasoning_parts ++
         [ "Adjusted task durations to fit within the "
             +:+ format_timeline timeline_weeks +:+ "-week timeline." ]
    else reasoning_parts in
  let reasoning_parts :=
    reasoning_parts ++
    [ "Tasks are ordered logically with dependencies to ensure smooth progression.";
      "Priority levels are assigned based on importance and dependencies.";
      "Time estimates are realistic and account for potential challenges." ] in
  join " " reasoning_parts.

(** *** Fallback *)

Definition _get_fallback_tasks (goal : string) : list task :=
  [ Task ("Plan and Research " +:+ goal)
         ("Research and plan the approach for " +:+ goal)
         "high" 8 [] 0;
    Task ("Implement Core Features for " +:+ goal)
         ("Implement the main functionality for " +:+ goal)
         "high" 16 [0%nat] 2;
    Task ("Test and Validate " +:+ goal)
         ("Test the implementation of " +:+ goal)
         "medium" 8 [1%nat] 4;
    Task ("Deploy and Launch " +:+ goal)
         ("Deploy and launch " +:+ goal)
         "high" 4 [2%nat] 6 ].

(** *** Generation *)

(** [sum(task["estimated_duration_hours"] for task in tasks)] *)
Definition total_hours (tasks : list task) : Z :=
  foldr (fun t acc => estimated_duration_hours t + acc) 0 tasks.

(** Lines 137-138: [max(1, total_hours // 8)] *)
Definition estimated_days_of (tasks : list task) : Z :=
  Z.max 1 (total_hours tasks / 8).

(** The body of the [try] of [generate_task_breakdown].  The list that
    [_add_dependencies] returns is the list it was given, updated in
    place, so the hours are summed over the updated tasks. *)
Definition breakdown_stages (goal : string) (timeline_weeks : timeline)
    (additional_context : option string) : result breakdown :=
  let goal_type := _analyze_goal_type goal additional_context in
  try! fallback_templates :=
    match task_templates !! "product_launch" with
    | Some base => Return base
    | None => Raise (KeyError "'product_launch'")
    end in
  let base_tasks := default fallback_templates (task_templates !! goal_type) in
  try! customized_tasks :=
    _customize_tasks base_tasks goal additional_context timeline_weeks in
  let tasks_with_dependencies := _add_dependencies customized_tasks in
  let reasoning :=
    _generate_reasoning goal goal_type (length tasks_with_dependencies)
                        timeline_weeks in
  let estimated_days := estimated_days_of tasks_with_dependencies in
  Return (Breakdown reasoning estimated_days tasks_with_dependencies).

(** The [except Exception as e] branch *)
Definition fallback_breakdown (goal : string) (e : exn) : breakdown :=
  Breakdown ("Generated using local AI logic. Error: " +:+ exn_message e)
            14 (_get_fallback_tasks goal).

Definition generate_task_breakdown (goal : string) (timeline_weeks : timeline)
    (additional_context : option string) : breakdown :=
  match breakdown_stages goal timeline_weeks additional_context with
  | Return plan => plan
  | Raise e => fallback_breakdown goal e
  end.

(** *** Suggestions *)

Definition generic_suggestions : list string :=
  [ "Break down into smaller, more specific subtasks";
    "Add measurable success criteria";
    "Consider potential blockers and mitigation strategies";
    "Set up regular check-ins or milestones";
    "Document lessons learned for future reference" ].

Definition generate_task_suggestions (current_task context : string) : list string :=
  let suggestions := generic_suggestions in
  let task_lower := lower current_task in
  let suggestions :=
    if str_in "research" task_lower
    then suggestions ++
         [ "Create a research plan with specific questions";
           "Identify key sources and experts to consult" ]
    else if str_in "implement" task_lower || str_in "develop" task_lower
    then suggestions ++
         [ "Write unit tests alongside implementation";
           "Consider code review and pair programming" ]
    else if str_in "test" task_lower
    then suggestions ++
         [ "Create test cases before testing begins";
           "Document bugs and their resolutions" ]
    else suggestions in
  take 5 suggestions.

(** *** Complexity analysis *)



End LocalAIService.
Import LocalAIService.

(** ** The specification's wording of the ordered keyword scans

    These definitions follow the text of the specification, not the
    code; the theorems below compare them with the code. *)

Module Stated.

(** "An explicit ordered list of (keyword-set, outcome) pairs
    evaluated in sequence": the outcome of the first set with a
    substring hit, [otherwise] when no set hits. *)
Fixpoint first_hit (rules : list (list string * string)) (otherwise text : string)
    : string :=
  match rules with
  | [] => otherwise
  | (keywords, outcome) :: rest =>
      if any_in keywords text then outcome else first_hit rest otherwise text
  end.

Definition goal_type_rules : list (list string * string) :=
  [ (["app"; "mobile"; "ios"; "android"; "react native"], "mobile_app");
    (["learn"; "study"; "course"; "tutorial"; "skill"], "learning");
    (["event"; "party"; "conference"; "meeting"; "gathering"], "event_planning");
    (["business"; "startup"; "company"; "entrepreneur"], "business_startup");
    (["launch"; "product"; "release"; "deploy"], "product_launch") ].

(** "Concatenate goalText and contextText (empty string if absent),
    lower-case" *)
Definition classify (goalText : string) (contextText : option string) : string :=
  first_hit goal_type_rules "product_launch"
            (lower (goalText +:+ or_empty contextText)).

Definition priority_rules : list (list string * string) :=
  [ (["urgent"; "critical"; "essential"; "immediate"; "launch";
      "deadline"; "core"; "main"; "primary"], "high");
    (["important"; "secondary"; "support"; "enhancement";
      "feature"; "improvement"], "medium");
    (["optional"; "nice-to-have"; "future"; "documentation";
      "cleanup"; "optimization"], "low") ].

(** "Against the concatenation of (title + goal + context)" *)
Definition determine_priority (title goal : string) (context : option string)
    : string :=
  first_hit priority_rules "medium"
            (lower (title +:+ goal +:+ or_empty context)).

(** The text the code scans: the parts joined by single spaces. *)
Definition spaced (parts : list string) : string := lower (join " " parts).

(** "If baseline exceeds maxHours / archetypeCount, clamp duration to
    max(4, floor(maxHours / archetypeCount)); otherwise duration is
    unchanged", with maxHours = timelineWeeks * 40.  The comparison with
    the exact quotient is written cross-multiplied ([count] is
    positive). *)
Definition scaled_duration (timelineWeeks : Z) (count : nat) (baseline : Z) : Z :=
  let maxHours := (timelineWeeks * 40)%Z in
  if (maxHours <? baseline * Z.of_nat count)%Z
  then Z.max 4 (maxHours / Z.of_nat count)
  else baseline.

End Stated.

(** ** Notions used in the statements *)

(** An archetype with another baseline priority. *)
Definition with_priority (p : string) (base : archetype) : archetype :=
  Archetype (a_title base) (a_duration base) p.

(** The tasks the customization loop builds from position [i] on when
    the duration of each is [duration_of] of its baseline. *)
Fixpoint customized_with (duration_of : Z -> Z) (goal : string)
    (context : option string) (i : nat) (rest : list archetype) : list task :=
  match rest with
  | [] => []
  | base :: rest' =>
      let title := _customize_task_title (a_title base) goal context in
      Task title (_generate_task_description title goal)
           (_determine_priority (a_title base) goal context)
           (duration_of (a_duration base)) [] (i * 2)%nat
      :: customized_with duration_of goal context (S i) rest'
  end.

(** The catalog [generate_task_breakdown] picks for a goal. *)
Definition catalog_for (goal : string) (context : option string) : list archetype :=
  default product_launch_tasks (task_templates !! _analyze_goal_type goal context).

(** The keywords of the tier that [_determine_priority] scans first. *)
Definition high_keywords : list string :=
  default [] (snd <$> head priority_keywords).

(** The duration [scale_duration] gives a baseline, the baseline itself
    where it raises. *)
Definition scaled_or_baseline (timeline_weeks : timeline) (count : nat)
    (baseline : Z) : Z :=
  match scale_duration timeline_weeks count baseline with
  | Return duration => duration
  | Raise _ => baseline
  end.

(** The goal types, in the order [_analyze_goal_type] checks them. *)
Definition goal_types : list string :=
  [ "mobile_app"; "learning"; "event_planning"; "business_startup"; "product_launch" ].

(** The domain-specific suggestions of [generate_task_suggestions]. *)
Definition specific_suggestions : list string :=
  [ "Create a research plan with specific questions";
    "Identify key sources and experts to consult";
    "Write unit tests alongside implementation";
    "Consider code review and pair programming";
    "Create test cases before testing begins";
    "Document bugs and their resolutions" ].

(** ** Results *)

(** *** Ordered keyword scans *)

Section FirstHit.

Variables (rules : list (list string * string)) (otherwise text : string).

Lemma first_hit_at (k : nat) (keywords : list string) (outcome : string) :
  rules !! k = Some (keywords, outcome) ->
  any_in keywords text = true ->
  (forall j keywords' outcome', (j < k)%nat ->
      rules !! j = Some (keywords', outcome') -> any_in keywords' text = false) ->
  Stated.first_hit rules otherwise text = outcome.
Proof.
  revert k. induction rules as [|[kws out] rest IH]; intros k Hk Hhit Hbefore.
  - discriminate.
  - destruct k as [|k]; simpl in *.
    + injection Hk as -> ->. now rewrite Hhit.
    + rewrite (Hbefore 0%nat kws out) by (lia || reflexivity).
      apply (IH k); auto.
      intros j kws' out' Hj Hl. apply (Hbefore (S j) kws' out'); [lia | exact Hl].
Qed.

Lemma first_hit_none :
  (forall k keywords outcome,
      rules !! k = Some (keywords, outcome) -> any_in keywords text = false) ->
  Stated.first_hit rules otherwise text = otherwise.
Proof.
  induction rules as [|[kws out] rest IH]; intros Hnone; simpl.
  - reflexivity.
  - rewrite (Hnone 0%nat kws out) by reflexivity.
    apply IH. intros k kws' out' Hl. apply (Hnone (S k) kws' out'). exact Hl.
Qed.

End FirstHit.

Lemma analyze_goal_type_first_hit (goal : string) (context : option string) :
  _analyze_goal_type goal context =
  Stated.first_hit Stated.goal_type_rules "product_launch"
                   (Stated.spaced [goal; or_empty context]).
Proof. reflexivity. Qed.

(** C3 (as stated): the scanned text is not the plain concatenation of
    goal and context.  With goal "Ship it with React" and context
    "Native", the code sees "react native" and answers mobile_app, while
    the concatenation "...reactnative" hits no keyword set. *)
Lemma classify_concatenation_counterexample :
  _analyze_goal_type "Ship it with React" (Some "Native") = "mobile_app" /\
  Stated.classify "Ship it with React" (Some "Native") = "product_launch".
Proof. split; reflexivity. Qed.

(** C3 (amended): the goal type is the outcome of the first keyword set,
    in the order mobile_app, learning, event_planning, business_startup,
    product_launch, that has a substring hit in the lower-cased text
    "goal, one space, context (empty if absent)", and product_launch when
    no set hits; "Launch a mobile app" is a mobile_app. *)
Theorem classify_first_hit_in_order (goal : string) (context : option string) :
  let text := lower (goal +:+ " " +:+ or_empty context) in
  (forall k keywords outcome,
      Stated.goal_type_rules !! k = Some (keywords, outcome) ->
      any_in keywords text = true ->
      (forall j keywords' outcome', (j < k)%nat ->
          Stated.goal_type_rules !! j = Some (keywords', outcome') ->
          any_in keywords' text = false) ->
      _analyze_goal_type goal context = outcome) /\
  ((forall k keywords outcome,
      Stated.goal_type_rules !! k = Some (keywords, outcome) ->
      any_in keywords text = false) ->
   _analyze_goal_type goal context = "product_launch") /\
  map snd Stated.goal_type_rules =
    ["mobile_app"; "learning"; "event_planning"; "business_startup"; "product_launch"] /\
  _analyze_goal_type "Launch a mobile app" (Some "") = "mobile_app" /\
  _analyze_goal_type "Launch a mobile app" None = "mobile_app".
Proof.
  intros text. rewrite analyze_goal_type_first_hit.
  change (Stated.spaced [goal; or_empty context]) with text.
  repeat split.
  - intros k kws out. apply first_hit_at.
  - apply first_hit_none.
Qed.

(** *** Priority *)

Lemma determine_priority_first_hit (title goal : string) (context : option string) :
  _determine_priority title goal context =
  Stated.first_hit Stated.priority_rules "medium"
                   (Stated.spaced [title; goal; or_empty context]).
Proof.
  unfold _determine_priority, Stated.spaced, priority_keywords. simpl.
  repeat match goal with |- context [if ?b then _ else _] => destruct b end;
    reflexivity.
Qed.

Lemma first_hit_outcome (rules : list (list string * string)) (otherwise text : string) :
  Stated.first_hit rules otherwise text = otherwise \/
  In (Stated.first_hit rules otherwise text) (map snd rules).
Proof.
  induction rules as [|[kws out] rest IH]; simpl.
  - now left.
  - destruct (any_in kws text); [right; now left | destruct IH; auto].
Qed.

Lemma determine_priority_range (title goal : string) (context : option string) :
  In (_determine_priority title goal context) ["high"; "medium"; "low"].
Proof.
  rewrite determine_priority_first_hit.
  destruct (first_hit_outcome Stated.priority_rules "medium"
              (Stated.spaced [title; goal; or_empty context])) as [-> | H].
  - simpl; auto.
  - exact H.
Qed.

(** The customization loop, when it returns, assigns to every task the
    keyword priority of the archetype's title. *)
Lemma customize_from_priority (count : nat) (goal : string) (context : option string)
    (timeline_weeks : timeline) (rest : list archetype) :
  forall (i : nat) (customized : list task),
    customize_from count goal context timeline_weeks i rest = Return customized ->
    map priority customized =
    map (fun base => _determine_priority (a_title base) goal context) rest.
Proof.
  induction rest as [|base rest IH]; intros i customized; simpl.
  - intros [= <-]. reflexivity.
  - destruct (scale_duration timeline_weeks count (a_duration base)); simpl; [|discriminate].
    destruct (customize_from count goal context timeline_weeks (S i) rest) eqn:E;
      simpl; [|discriminate].
    intros [= <-]. simpl. f_equal. eapply IH. exact E.
Qed.

(** The archetype's own priority is not read by the loop. *)
Lemma customize_from_ignores_baseline (p : string) (count : nat) (goal : string)
    (context : option string) (timeline_weeks : timeline) (rest : list archetype) :
  forall i : nat,
    customize_from count goal context timeline_weeks i (map (with_priority p) rest) =
    customize_from count goal context timeline_weeks i rest.
Proof.
  induction rest as [|base rest IH]; intros i; simpl; [reflexivity|].
  now rewrite IH.
Qed.

(** *** Dependencies: the in-place loop as a map over positions *)

Lemma indices_from_elem (p : task -> bool) (prev : list task) :
  forall (j d : nat),
    d ∈ indices_from p j prev <->
    exists k t, prev !! k = Some t /\ p t = true /\ d = (j + k)%nat.
Proof.
  induction prev as [|t0 rest IH]; intros j d; simpl.
  - split; [intros H; inversion H | intros (k & t & H & _); discriminate].
  - assert (Hrest : d ∈ indices_from p (S j) rest <->
                    exists k t, (t0 :: rest) !! S k = Some t /\ p t = true
                                /\ d = (j + S k)%nat).
    { rewrite IH. split; intros (k & t & H1 & H2 & H3); exists k, t;
        repeat split; auto; lia. }
    destruct (p t0) eqn:Hp.
    + rewrite elem_of_cons, Hrest. split.
      * intros [-> | (k & t & H1 & H2 & H3)].
        -- exists 0%nat, t0. repeat split; auto; lia.
        -- exists (S k), t. auto.
      * intros ([|k] & t & H1 & H2 & H3).
        -- left. lia.
        -- right. exists k, t. auto.
    + rewrite Hrest. split.
      * intros (k & t & H); exists (S k), t; exact H.
      * intros ([|k] & t & H1 & H2 & H3).
        -- simpl in H1. injection H1 as ->. congruence.
        -- exists k, t. auto.
Qed.

Lemma indices_from_titles (p : task -> bool) :
  (forall t1 t2, title t1 = title t2 -> p t1 = p t2) ->
  forall (l1 l2 : list task) (j : nat),
    title <$> l1 = title <$> l2 ->
    indices_from p j l1 = indices_from p j l2.
Proof.
  intros Hp. induction l1 as [|t1 l1 IH]; intros [|t2 l2] j Heq;
    try discriminate; simpl in *; [reflexivity|].
  injection Heq as Ht Hl. rewrite (Hp t1 t2 Ht), (IH l2 (S j) Hl). reflexivity.
Qed.

Lemma dependencies_at_titles (tasks1 tasks2 : list task) (i : nat) (t : task) :
  title <$> tasks1 = title <$> tasks2 ->
  dependencies_at tasks1 i t = dependencies_at tasks2 i t.
Proof.
  intros Heq. unfold dependencies_at.
  assert (Htake : title <$> take i tasks1 = title <$> take i tasks2)
    by now rewrite !fmap_take, Heq.
  rewrite (indices_from_titles is_implementation) with (l2 := take i tasks2);
    [|unfold is_implementation; now intros ? ? -> | exact Htake].
  rewrite (indices_from_titles is_test) with (l2 := take i tasks2);
    [|unfold is_test; now intros ? ? -> | exact Htake].
  reflexivity.
Qed.

(** After the first [k] iterations the first [k] tasks carry their
    dependencies and the others are untouched. *)
Lemma add_dependencies_prefix (tasks : list task) (k : nat) :
  (k <= length tasks)%nat ->
  foldl add_dependencies_step tasks (seq 0 k) =
  imap (fun i t => if (i <? k)%nat
                   then set_dependencies t (dependencies_at tasks i t) else t) tasks.
Proof.
  induction k as [|k IH]; intros Hk.
  - simpl. apply list_eq. intros i. rewrite list_lookup_imap.
    now destruct (tasks !! i).
  - rewrite seq_S, foldl_app, IH by lia. simpl.
    set (done := imap _ tasks).
    assert (Htitles : title <$> done = title <$> tasks).
    { apply list_eq. intros i. unfold done.
      rewrite !list_lookup_fmap, list_lookup_imap.
      destruct (tasks !! i); simpl; [|reflexivity].
      now destruct (i <? k)%nat. }
    destruct (lookup_lt_is_Some_2 tasks k) as [t Ht]; [lia|].
    unfold add_dependencies_step.
    assert (Hdone : done !! k = Some t).
    { unfold done. rewrite list_lookup_imap, Ht. simpl.
      now rewrite Nat.ltb_irrefl. }
    rewrite Hdone, (dependencies_at_titles done tasks k t Htitles).
    apply list_eq. intros i.
    rewrite list_lookup_imap.
    destruct (decide (i = k)) as [-> | Hne].
    + rewrite list_lookup_insert_eq
        by (unfold done; rewrite length_imap; lia).
      rewrite Ht. simpl.
      destruct (Nat.ltb_spec k (S k)); [reflexivity | lia].
    + rewrite list_lookup_insert_ne by congruence.
      unfold done. rewrite list_lookup_imap.
      destruct (tasks !! i); simpl; [|reflexivity].
      destruct (Nat.ltb_spec i k), (Nat.ltb_spec i (S k)); try reflexivity; lia.
Qed.

Lemma add_dependencies_imap (tasks : list task) :
  _add_dependencies tasks =
  imap (fun i t => set_dependencies t (dependencies_at tasks i t)) tasks.
Proof.
  unfold _add_dependencies. rewrite add_dependencies_prefix by lia.
  apply list_eq. intros i. rewrite !list_lookup_imap.
  destruct (tasks !! i) eqn:Hi; simpl; [|reflexivity].
  apply lookup_lt_Some in Hi.
  destruct (Nat.ltb_spec i (length tasks)); [reflexivity | lia].
Qed.

Lemma add_dependencies_lookup (tasks : list task) (i : nat) :
  _add_dependencies tasks !! i =
  (fun t => set_dependencies t (dependencies_at tasks i t)) <$> tasks !! i.
Proof. rewrite add_dependencies_imap. apply list_lookup_imap. Qed.

Lemma add_dependencies_length (tasks : list task) :
  length (_add_dependencies tasks) = length tasks.
Proof. rewrite add_dependencies_imap. apply length_imap. Qed.

(** Only the ["dependencies"] entry of a task is touched. *)
Lemma add_dependencies_keeps {A : Type} (field : task -> A) (tasks : list task) :
  (forall t deps, field (set_dependencies t deps) = field t) ->
  field <$> _add_dependencies tasks = field <$> tasks.
Proof.
  intros Hfield. apply list_eq. intros i.
  rewrite !list_lookup_fmap, add_dependencies_lookup.
  destruct (tasks !! i); simpl; [|reflexivity]. now rewrite Hfield.
Qed.

Lemma indices_from_take (p : task -> bool) (tasks : list task) (i d : nat) :
  d ∈ indices_from p 0 (take i tasks) <->
  (d < i)%nat /\ exists t, tasks !! d = Some t /\ p t = true.
Proof.
  rewrite indices_from_elem. split.
  - intros (k & t & Hk & Hp & ->). simpl.
    apply lookup_take_Some in Hk as [Hk Hlt]. eauto.
  - intros (Hlt & t & Hd & Hp). exists d, t. repeat split; auto.
    now rewrite lookup_take_lt.
Qed.

(** Membership in the dependencies computed for position [i]. *)
Lemma dependencies_at_elem (tasks : list task) (i : nat) (t : task) (d : nat) :
  d ∈ dependencies_at tasks i t <->
  ((0 < i)%nat /\ d = (i - 1)%nat) \/
  (str_in "testing" (lower (title t)) = true /\
   (d < i)%nat /\ exists tj, tasks !! d = Some tj /\ is_implementation tj = true) \/
  (str_in "testing" (lower (title t)) = false /\
   str_in "deploy" (lower (title t)) = true /\
   (d < i)%nat /\ exists tj, tasks !! d = Some tj /\ is_test tj = true).
Proof.
  unfold dependencies_at.
  rewrite elem_of_elements, elem_of_list_to_set.
  assert (Hlin : d ∈ (if (0 <? i)%nat then [(i - 1)%nat] else []) <->
                 (0 < i)%nat /\ d = (i - 1)%nat).
  { destruct (Nat.ltb_spec 0 i).
    - rewrite list_elem_of_singleton. intuition.
    - split; [intros H'; inversion H' | lia]. }
  destruct (str_in "testing" (lower (title t)));
    [|destruct (str_in "deploy" (lower (title t)))];
    rewrite ?elem_of_app, ?indices_from_take, Hlin;
    intuition (try discriminate; auto).
Qed.

Lemma dependencies_at_backward (tasks : list task) (i : nat) (t : task) (d : nat) :
  d ∈ dependencies_at tasks i t -> (d < i)%nat.
Proof. rewrite dependencies_at_elem. intros [[? ->] | [(_ & ? & _) | (_ & _ & ? & _)]]; lia. Qed.

(** Every dependency that [_add_dependencies] writes points backward. *)
Lemma add_dependencies_backward (tasks : list task) (i : nat) (t : task) (d : nat) :
  _add_dependencies tasks !! i = Some t -> d ∈ dependencies t -> (d < i)%nat.
Proof.
  rewrite add_dependencies_lookup.
  destruct (tasks !! i) as [t0|]; simpl; [|discriminate].
  intros [= <-]. simpl. apply dependencies_at_backward.
Qed.

Lemma fallback_backward (goal : string) (i : nat) (t : task) (d : nat) :
  _get_fallback_tasks goal !! i = Some t -> d ∈ dependencies t -> (d < i)%nat.
Proof.
  destruct i as [|[|[|[|i]]]]; simpl; try discriminate; intros [= <-]; simpl;
    intros Hd; try (now inversion Hd);
    apply list_elem_of_singleton in Hd; lia.
Qed.

(** C2: in every plan that [generate_task_breakdown] returns, on the
    main path and on the fallback path alike, each dependency index of
    the task at position [i] is strictly less than [i]. *)
Theorem generated_dependencies_point_backward (goal : string)
    (timeline_weeks : timeline) (additional_context : option string)
    (i : nat) (t : task) (d : nat) :
  tasks (generate_task_breakdown goal timeline_weeks additional_context) !! i = Some t ->
  d ∈ dependencies t ->
  (d < i)%nat.
Proof.
  unfold generate_task_breakdown.
  destruct (breakdown_stages goal timeline_weeks additional_context) as [plan|e] eqn:E.
  - unfold breakdown_stages in E.
    destruct (task_templates !! "product_launch"); simpl in E; [|discriminate].
    destruct (_customize_tasks _ goal additional_context timeline_weeks);
      simpl in E; [|discriminate].
    injection E as <-. simpl. apply add_dependencies_backward.
  - simpl. apply fallback_backward.
Qed.

(** C2, on the main path: task 7 of the mobile-app plan, "Testing and
    Bug Fixes", depends on task 4, "Develop Core Features". *)
Lemma generated_dependencies_point_backward_witness :
  exists t,
    tasks (generate_task_breakdown "Launch a mobile app in 3 weeks" (PyInt 3)
             (Some "Solo developer")) !! 7%nat = Some t /\
    4%nat ∈ dependencies t /\ (4 < 7)%nat.
Proof.
  eexists. split; [vm_compute; reflexivity|].
  split; [vm_compute; set_solver|].
  eapply (generated_dependencies_point_backward
            "Launch a mobile app in 3 weeks" (PyInt 3) (Some "Solo developer") 7%nat).
  - vm_compute. reflexivity.
  - vm_compute. set_solver.
Defined.

(** *** True division and the duration guard *)

Section TrueDivision.

Local Open Scope Z_scope.

Lemma round_half_even_bounds (num den : Z) :
  0 < den ->
  num / den <= round_half_even num den <= num / den + 1.
Proof.
  intros Hden. unfold round_half_even.
  destruct (2 * (num mod den) <? den); [lia|].
  destruct (den <? 2 * (num mod den)); [lia|].
  destruct (Z.even (num / den)); lia.
Qed.

(** The rounded quotient is not below an integer that the exact
    quotient reaches. *)
Lemma round_half_even_lower (num den t : Z) :
  0 < den -> t * den <= num -> t <= round_half_even num den.
Proof.
  intros Hden Ht.
  pose proof (round_half_even_bounds num den Hden) as [Hlo _].
  assert (t <= num / den) by (apply Z.div_le_lower_bound; lia).
  lia.
Qed.

(** It stays below an integer [t] when the exact quotient is below [t]
    by at least [w / den] and [w / den] is more than one half. *)
Lemma round_half_even_upper (num den t w : Z) :
  0 < den -> num + w <= t * den -> den < 2 * w ->
  round_half_even num den < t.
Proof.
  intros Hden Hnum Hw. unfold round_half_even.
  pose proof (Z.div_mod num den ltac:(lia)) as Hdm.
  pose proof (Z.mod_pos_bound num den Hden) as Hr.
  assert (Hq : num / den < t) by nia.
  destruct (Z.ltb_spec (2 * (num mod den)) den); [exact Hq|].
  assert (num / den + 1 < t) by nia.
  destruct (den <? 2 * (num mod den)); [lia|].
  destruct (Z.even (num / den)); lia.
Qed.

(** A non-negative binade is a lower bound of the quotient. *)
Lemma binade_lower (a b : Z) :
  0 < a -> 0 < b -> 0 <= binade a b -> b * 2 ^ binade a b <= a.
Proof.
  intros Ha Hb. unfold binade, ge_scaled.
  set (k := Z.log2 a - Z.log2 b).
  destruct (Z.leb_spec 0 k) as [Hk | Hk].
  - destruct (Z.leb_spec (b * 2 ^ k) a) as [Hle | Hgt]; [easy|].
    intros Hk1.
    pose proof (Z.log2_spec a Ha) as [Hla _].
    pose proof (Z.log2_spec b Hb) as [_ Hlb].
    pose proof (Z.log2_nonneg b) as Hlb0.
    assert (Hpow : 2 ^ Z.succ (Z.log2 b) * 2 ^ (k - 1) = 2 ^ Z.log2 a).
    { rewrite <- Z.pow_add_r by lia. f_equal. unfold k. lia. }
    assert (0 < 2 ^ (k - 1)) by (apply Z.pow_pos_nonneg; lia).
    nia.
  - destruct (b <=? a * 2 ^ (- k)); lia.
Qed.

(** Within this range the quotient is a binary64: no [OverflowError]. *)
Lemma round_quotient_in_range (a b : Z) :
  0 < a -> a < 2 ^ 1023 -> 0 < b -> too_large (round_quotient a b) = false.
Proof.
  intros Ha Hmax Hb. unfold too_large, round_quotient. cbn [fl_m fl_e].
  set (e := Z.max (binade a b - 52) (-1074)).
  destruct (Z.leb_spec 0 e) as [He | He]; [|reflexivity].
  simpl. apply Z.leb_gt.
  assert (HL : 0 <= binade a b) by lia.
  pose proof (binade_lower a b Ha Hb HL) as Hlow.
  assert (He' : e = binade a b - 52) by lia.
  assert (Hpe : 0 < 2 ^ e) by (apply Z.pow_pos_nonneg; lia).
  assert (Hsplit : 2 ^ binade a b = 2 ^ e * 2 ^ 52).
  { rewrite <- Z.pow_add_r by lia. f_equal. lia. }
  pose proof (round_half_even_bounds a (b * 2 ^ e) ltac:(nia)) as [Hlo Hup].
  pose proof (Z.mul_div_le a (b * 2 ^ e) ltac:(nia)) as Hfloor.
  assert (Hq0 : 0 <= a / (b * 2 ^ e)) by (apply Z.div_pos; nia).
  set (m := round_half_even a (b * 2 ^ e)) in *.
  assert (H52 : 1 <= 2 ^ 52) by (apply Z.lt_pred_le; apply Z.pow_pos_nonneg; lia).
  assert (Hm : m * 2 ^ e <= 2 * a).
  { assert (m * (b * 2 ^ e) <= a + b * 2 ^ e) by nia.
    assert (b * 2 ^ e <= a) by nia.
    assert (0 <= m) by lia.
    nia. }
  change (2 ^ 1024) with (2 * 2 ^ 1023). lia.
Qed.

(** The guard [duration > max_hours / len(base_tasks)] decides the
    exact comparison as long as [duration * len(base_tasks)] is at most
    [2 ^ 53]. *)
Lemma guard_exact (a b d : Z) :
  0 < a -> 0 < b -> d * b <= 2 ^ 53 ->
  int_gt_float d (round_quotient a b) = (a <? d * b).
Proof.
  intros Ha Hb Hd. unfold int_gt_float, round_quotient. cbn [fl_m fl_e].
  set (e := Z.max (binade a b - 52) (-1074)).
  destruct (Z.leb_spec 0 e) as [He | He].
  - (* the quotient is at least 2^52 *)
    assert (HL : 0 <= binade a b) by lia.
    pose proof (binade_lower a b Ha Hb HL) as Hlow.
    assert (He' : binade a b = e + 52) by lia.
    assert (Hpe : 0 < 2 ^ e) by (apply Z.pow_pos_nonneg; lia).
    assert (Hsplit : 2 ^ binade a b = 2 ^ 52 * 2 ^ e).
    { rewrite He', Z.pow_add_r by lia. lia. }
    assert (Hm : 2 ^ 52 <= round_half_even a (b * 2 ^ e))
      by (apply round_half_even_lower; nia).
    destruct (Z.eq_dec e 0) as [He0 | He0].
    + rewrite He0 in *. change (2 ^ 0) with 1 in *. rewrite !Z.mul_1_r in *.
      destruct (Z.ltb_spec a (d * b)) as [Hlt | Hge].
      * apply Z.ltb_lt. apply (round_half_even_upper a b d 1); lia.
      * apply Z.ltb_ge. apply round_half_even_lower; lia.
    + assert (2 <= 2 ^ e).
      { change 2 with (2 ^ 1) at 1. apply Z.pow_le_mono_r; lia. }
      change (2 ^ 53) with (2 * 2 ^ 52) in Hd.
      transitivity false; [apply Z.ltb_ge; nia | symmetry; apply Z.ltb_ge; nia].
  - (* the quotient is below 2^52: the mantissa counts units of 2^e *)
    set (s := - e) in *.
    assert (Hs : 0 < s <= 1074) by lia.
    assert (Hps : 0 < 2 ^ s) by (apply Z.pow_pos_nonneg; lia).
    destruct (Z.ltb_spec a (d * b)) as [Hlt | Hge].
    + apply Z.ltb_lt.
      apply (round_half_even_upper (a * 2 ^ s) b (d * 2 ^ s) (2 ^ s)); try nia.
      (* b < 2 ^ (s + 1) *)
      assert (H1d : 1 <= d) by nia.
      destruct (Z.leb_spec 0 (binade a b)) as [HL | HL].
      * pose proof (binade_lower a b Ha Hb HL) as Hlow.
        assert (Hs' : s = 52 - binade a b) by lia.
        assert (Hsplit : 2 ^ 53 = 2 * 2 ^ s * 2 ^ binade a b).
        { rewrite <- Z.mul_assoc, <- Z.pow_add_r by lia.
          replace (s + binade a b) with 52 by lia. reflexivity. }
        assert (0 < 2 ^ binade a b) by (apply Z.pow_pos_nonneg; lia).
        nia.
      * assert (2 ^ 53 <= 2 ^ s).
        { apply Z.pow_le_mono_r; lia. }
        nia.
    + apply Z.ltb_ge. apply round_half_even_lower; nia.
Qed.

End TrueDivision.

(** *** Customization *)

Lemma scale_duration_falsy (timeline_weeks : timeline) (count : nat) (duration : Z) :
  truthy timeline_weeks = false ->
  scale_duration timeline_weeks count duration = Return duration.
Proof. intros H. unfold scale_duration. now rewrite H. Qed.

(** A [str] timeline that is not empty fails at the first division. *)
Lemma scale_duration_str (s : string) (count : nat) (duration : Z) :
  s <> "" ->
  scale_duration (PyStr s) count duration =
  Raise (TypeError "unsupported operand type(s) for /: 'str' and 'int'").
Proof.
  intros Hs. unfold scale_duration, truthy.
  destruct (String.eqb_spec s ""); [contradiction | reflexivity].
Qed.

(** A positive [int] timeline in the binary64 range, on a catalog whose
    baselines are small enough for the guard to be exact. *)
Lemma scale_duration_int (weeks : Z) (count : nat) (duration : Z) :
  (0 < weeks)%Z -> (weeks * 40 < 2 ^ 1023)%Z -> (0 < count)%nat ->
  (duration * Z.of_nat count <= 2 ^ 53)%Z ->
  scale_duration (PyInt weeks) count duration =
  Return (Stated.scaled_duration weeks count duration).
Proof.
  intros Hw Hmax Hc Hd. unfold scale_duration, Stated.scaled_duration, truthy.
  destruct (Z.eqb_spec weeks 0) as [|_]; [lia|]. simpl negb. cbv iota.
  unfold int_truediv.
  destruct (Z.eqb_spec (weeks * 40) 0) as [|_]; [lia|].
  rewrite Z.abs_eq, round_quotient_in_range by lia.
  rewrite Z.sgn_pos by lia. simpl bind.
  replace (int_gt_float duration _)
    with (int_gt_float duration (round_quotient (weeks * 40) (Z.of_nat count)))
    by (unfold int_gt_float; simpl; now rewrite Z.mul_1_l).
  rewrite guard_exact by lia.
  now destruct (weeks * 40 <? duration * Z.of_nat count)%Z.
Qed.

(** When every duration scales to [duration_of] of the baseline the loop
    returns, and returns the tasks built with [duration_of]. *)
Lemma customize_from_returns (duration_of : Z -> Z) (count : nat) (goal : string)
    (context : option string) (timeline_weeks : timeline) (rest : list archetype) :
  Forall (fun base => scale_duration timeline_weeks count (a_duration base) =
                      Return (duration_of (a_duration base))) rest ->
  forall i : nat,
    customize_from count goal context timeline_weeks i rest =
    Return (customized_with duration_of goal context i rest).
Proof.
  induction 1 as [|base rest Hbase _ IH]; intros i; simpl; [reflexivity|].
  rewrite Hbase. simpl. rewrite IH. reflexivity.
Qed.

(** When one duration fails the loop raises what the first failure
    raised: every task fails alike, so it is the first one. *)
Lemma customize_from_raises (e : exn) (count : nat) (goal : string)
    (context : option string) (timeline_weeks : timeline)
    (base : archetype) (rest : list archetype) (i : nat) :
  scale_duration timeline_weeks count (a_duration base) = Raise e ->
  customize_from count goal context timeline_weeks i (base :: rest) = Raise e.
Proof. intros H. simpl. now rewrite H. Qed.

Lemma customized_with_durations (duration_of : Z -> Z) (goal : string)
    (context : option string) (rest : list archetype) :
  forall i : nat,
    estimated_duration_hours <$> customized_with duration_of goal context i rest =
    (fun base => duration_of (a_duration base)) <$> rest.
Proof. induction rest as [|base rest IH]; intros i; simpl; [|rewrite IH]; reflexivity. Qed.

Lemma customized_with_length (duration_of : Z -> Z) (goal : string)
    (context : option string) (rest : list archetype) :
  forall i : nat, length (customized_with duration_of goal context i rest) = length rest.
Proof. induction rest as [|base rest IH]; intros i; simpl; [|rewrite IH]; reflexivity. Qed.

Lemma customize_tasks_falsy (base_tasks : list archetype) (goal : string)
    (context : option string) (timeline_weeks : timeline) :
  truthy timeline_weeks = false ->
  _customize_tasks base_tasks goal context timeline_weeks =
  Return (customized_with (fun d => d) goal context 0 base_tasks).
Proof.
  intros H. unfold _customize_tasks. apply customize_from_returns.
  apply Forall_forall. intros base _. now apply scale_duration_falsy.
Qed.

(** C5 (as stated): a positive [int] timeline need not produce any
    duration.  At [timeline_weeks = 2 ** 1024] the quotient
    [max_hours / len(base_tasks)] is too large for a float and the
    customization of the product-launch catalog raises. *)
Lemma scaling_overflow_counterexample :
  (0 <? 2 ^ 1024)%Z = true /\
  _customize_tasks product_launch_tasks "Launch a product" None (PyInt (2 ^ 1024)) =
  Raise (OverflowError "integer division result too large for a float").
Proof. split; vm_compute; reflexivity. Qed.

(** Inside the range of a float the guard can still err when a baseline
    does not fit in 53 bits: with one archetype of [2 ** 57 + 4] hours and
    [max_hours = 2 ** 57 + 8] the baseline does not exceed the share, yet
    the task is clamped to [2 ** 57 + 8]. *)
Lemma scaling_rounding_example :
  let weeks := ((2 ^ 57 + 8) / 40)%Z in
  let baseline := (2 ^ 57 + 4)%Z in
  (0 <? weeks)%Z = true /\
  Stated.scaled_duration weeks 1 baseline = baseline /\
  scale_duration (PyInt weeks) 1 baseline = Return (2 ^ 57 + 8)%Z.
Proof. repeat split; vm_compute; reflexivity. Qed.

(** C5 (amended): for every archetype list and every positive integer
    [timelineWeeks] with [timelineWeeks * 40 < 2 ** 1023], if every
    baseline times the archetype count is at most [2 ** 53], then the
    customization returns, each task's duration is its baseline when the
    baseline does not exceed [(timelineWeeks * 40) / archetypeCount] and
    [max(4, floor((timelineWeeks * 40) / archetypeCount))] otherwise, and
    every clamped duration is at least 4 hours. *)
Theorem durations_scaled_to_timeline (base_tasks : list archetype) (goal : string)
    (context : option string) (timelineWeeks : Z) :
  (0 < timelineWeeks)%Z ->
  (timelineWeeks * 40 < 2 ^ 1023)%Z ->
  Forall (fun base =>
            (a_duration base * Z.of_nat (length base_tasks) <= 2 ^ 53)%Z) base_tasks ->
  exists customized,
    _customize_tasks base_tasks goal context (PyInt timelineWeeks) = Return customized /\
    length customized = length base_tasks /\
    (forall i base t,
        base_tasks !! i = Some base -> customized !! i = Some t ->
        let share_num := (timelineWeeks * 40)%Z in
        let count := Z.of_nat (length base_tasks) in
        ((a_duration base * count <= share_num)%Z ->
         estimated_duration_hours t = a_duration base) /\
        ((share_num < a_duration base * count)%Z ->
         estimated_duration_hours t = Z.max 4 (share_num / count) /\
         (4 <= estimated_duration_hours t)%Z)).
Proof.
  intros Hw Hmax Hsmall.
  set (count := length base_tasks) in *.
  exists (customized_with (Stated.scaled_duration timelineWeeks count) goal context
                          0 base_tasks).
  split; [|split].
  - unfold _customize_tasks. fold count. apply customize_from_returns.
    apply Forall_forall. intros base Hin.
    apply scale_duration_int; try assumption.
    + subst count. destruct base_tasks; [inversion Hin | simpl; lia].
    + rewrite Forall_forall in Hsmall. now apply Hsmall.
  - apply customized_with_length.
  - intros i base t Hi Ht.
    assert (Hdur : estimated_duration_hours t =
                   Stated.scaled_duration timelineWeeks count (a_duration base)).
    { pose proof (customized_with_durations
                    (Stated.scaled_duration timelineWeeks count) goal context
                    base_tasks 0%nat) as Hmap.
      apply (f_equal (fun l => l !! i)) in Hmap.
      rewrite !list_lookup_fmap, Hi, Ht in Hmap. simpl in Hmap. congruence. }
    rewrite Hdur. unfold Stated.scaled_duration. simpl.
    split.
    + intros Hle. destruct (Z.ltb_spec (timelineWeeks * 40)
                              (a_duration base * Z.of_nat count)); [lia | reflexivity].
    + intros Hlt. destruct (Z.ltb_spec (timelineWeeks * 40)
                              (a_duration base * Z.of_nat count)); [|lia].
      split; [reflexivity | lia].
Qed.

(** C5, at the product-launch catalog with a one-week timeline. *)
Lemma durations_scaled_to_timeline_witness :
  exists customized,
    _customize_tasks product_launch_tasks "Launch a product" None (PyInt 1) =
      Return customized /\
    length customized = length product_launch_tasks /\
    (forall i base t,
        product_launch_tasks !! i = Some base -> customized !! i = Some t ->
        let share_num := (1 * 40)%Z in
        let count := Z.of_nat (length product_launch_tasks) in
        ((a_duration base * count <= share_num)%Z ->
         estimated_duration_hours t = a_duration base) /\
        ((share_num < a_duration base * count)%Z ->
         estimated_duration_hours t = Z.max 4 (share_num / count) /\
         (4 <= estimated_duration_hours t)%Z)).
Proof.
  apply (durations_scaled_to_timeline product_launch_tasks "Launch a product" None 1).
  - lia.
  - vm_compute. reflexivity.
  - repeat constructor; vm_compute; discriminate.
Defined.

(** *** The stages of a generation *)

Lemma fallback_templates_present :
  task_templates !! "product_launch" = Some product_launch_tasks.
Proof. vm_compute. reflexivity. Qed.

Lemma catalog_for_cases (goal : string) (context : option string) :
  In (catalog_for goal context)
     [ mobile_app_tasks; learning_tasks; event_planning_tasks;
       business_startup_tasks; product_launch_tasks ].
Proof.
  unfold catalog_for, _analyze_goal_type.
  repeat match goal with |- context [if ?b then _ else _] => destruct b end;
    vm_compute; auto 6.
Qed.

Lemma catalog_for_nonempty (goal : string) (context : option string) :
  exists base rest, catalog_for goal context = base :: rest.
Proof.
  pose proof (catalog_for_cases goal context) as H. simpl in H.
  destruct H as [<- | [<- | [<- | [<- | [<- | []]]]]]; eexists _, _; reflexivity.
Qed.

Lemma breakdown_stages_unfold (goal : string) (timeline_weeks : timeline)
    (additional_context : option string) :
  breakdown_stages goal timeline_weeks additional_context =
  try! customized_tasks :=
    _customize_tasks (catalog_for goal additional_context) goal additional_context
                     timeline_weeks in
  Return (Breakdown
            (_generate_reasoning goal (_analyze_goal_type goal additional_context)
               (length (_add_dependencies customized_tasks)) timeline_weeks)
            (estimated_days_of (_add_dependencies customized_tasks))
            (_add_dependencies customized_tasks)).
Proof.
  unfold breakdown_stages. rewrite fallback_templates_present. reflexivity.
Qed.

(** A timeline that is falsy ([None], [0], [""]) is not looked at
    again: no stage raises, durations are the baselines, and the
    reasoning has no sentence about the timeline. *)
Lemma breakdown_stages_falsy (goal : string) (timeline_weeks : timeline)
    (additional_context : option string) :
  truthy timeline_weeks = false ->
  breakdown_stages goal timeline_weeks additional_context =
  breakdown_stages goal PyNone additional_context.
Proof.
  intros H. rewrite !breakdown_stages_unfold.
  rewrite (customize_tasks_falsy _ _ _ timeline_weeks H).
  rewrite (customize_tasks_falsy _ _ _ PyNone eq_refl).
  simpl. unfold _generate_reasoning. rewrite H. reflexivity.
Qed.

(** A [str] timeline that is not empty makes the first task's
    division fail, whatever the goal. *)
Lemma breakdown_stages_str (goal s : string) (additional_context : option string) :
  s <> "" ->
  breakdown_stages goal (PyStr s) additional_context =
  Raise (TypeError "unsupported operand type(s) for /: 'str' and 'int'").
Proof.
  intros Hs. rewrite breakdown_stages_unfold.
  destruct (catalog_for_nonempty goal additional_context) as (base & rest & ->).
  unfold _customize_tasks.
  rewrite (customize_from_raises _ _ _ _ _ _ _ _ (scale_duration_str s _ _ Hs)).
  reflexivity.
Qed.

(** *** The failure contract *)

(** C1: [generate_task_breakdown] returns a plan for every input, and
    when a stage raises, the plan is the fixed fallback: four tasks with
    dependencies [], [0], [1], [2], offsets 0, 2, 4, 6, durations 8, 16, 8,
    4 and priorities high, high, medium, high, 14 days, and a reasoning
    that ends with the message of the exception. *)
Theorem generation_falls_back (goal : string) (timeline_weeks : timeline)
    (additional_context : option string) (e : exn) :
  breakdown_stages goal timeline_weeks additional_context = Raise e ->
  let plan := generate_task_breakdown goal timeline_weeks additional_context in
  plan = Breakdown ("Generated using local AI logic. Error: " +:+ exn_message e)
                   14 (_get_fallback_tasks goal) /\
  title <$> tasks plan =
    [ "Plan and Research " +:+ goal; "Implement Core Features for " +:+ goal;
      "Test and Validate " +:+ goal; "Deploy and Launch " +:+ goal ] /\
  dependencies <$> tasks plan = [ []; [0%nat]; [1%nat]; [2%nat] ] /\
  due_date_offset_days <$> tasks plan = [ 0%nat; 2%nat; 4%nat; 6%nat ] /\
  estimated_duration_hours <$> tasks plan = [ 8%Z; 16%Z; 8%Z; 4%Z ] /\
  priority <$> tasks plan = [ "high"; "high"; "medium"; "high" ] /\
  estimated_duration_days plan = 14%Z /\
  reasoning plan = "Generated using local AI logic. Error: " +:+ exn_message e.
Proof.
  intros Hraise plan. subst plan. unfold generate_task_breakdown.
  rewrite Hraise. unfold fallback_breakdown. simpl. repeat split.
Qed.

(** C1, with a malformed timeline: the string "three". *)
Lemma generation_falls_back_witness :
  let plan := generate_task_breakdown "Plan a party" (PyStr "three") None in
  plan = Breakdown
           "Generated using local AI logic. Error: unsupported operand type(s) for /: 'str' and 'int'"
           14 (_get_fallback_tasks "Plan a party") /\
  dependencies <$> tasks plan = [ []; [0%nat]; [1%nat]; [2%nat] ].
Proof.
  pose proof (generation_falls_back "Plan a party" (PyStr "three") None
                (TypeError "unsupported operand type(s) for /: 'str' and 'int'")
                ltac:(vm_compute; reflexivity)) as H.
  split; [apply H | apply H].
Defined.

(** An [int] timeline too large for a float takes the fallback too. *)
Lemma generation_overflow_example :
  generate_task_breakdown "Launch a product" (PyInt (2 ^ 1024)) None =
  fallback_breakdown "Launch a product"
    (OverflowError "integer division result too large for a float").
Proof. vm_compute. reflexivity. Qed.

(** *** The day estimate *)

(** The rule belongs to the main path: the fallback plan carries the
    fixed value of 14 days, which is not derived from its four tasks (36
    hours, for which the rule would give 4 days). *)
Lemma fallback_days_are_fixed :
  let plan := generate_task_breakdown "Plan a party" (PyStr "three") None in
  estimated_duration_days plan = 14%Z /\
  total_hours (tasks plan) = 36%Z /\
  Z.max 1 (total_hours (tasks plan) / 8) = 4%Z.
Proof. repeat split; vm_compute; reflexivity. Qed.



(** *** A zero timeline *)

(** C9: [timeline_weeks = 0] gives the same plan as no timeline, for
    every goal and context: no stage raises, every duration is its
    baseline, and the reasoning has no sentence about the timeline. *)
Theorem zero_timeline_is_no_timeline (goal : string)
    (additional_context : option string) :
  let plan := generate_task_breakdown goal (PyInt 0) additional_context in
  plan = generate_task_breakdown goal PyNone additional_context /\
  breakdown_stages goal (PyInt 0) additional_context = Return plan /\
  estimated_duration_hours <$> tasks plan =
    a_duration <$> catalog_for goal additional_context /\
  reasoning plan =
    join " "
      [ "Analyzed the goal '" +:+ goal +:+ "' and identified it as a "
          +:+ replace "_" " " (_analyze_goal_type goal additional_context)
          +:+ " project.";
        "Generated "
          +:+ str_of_Z (Z.of_nat (length (catalog_for goal additional_context)))
          +:+ " actionable tasks based on best practices for this type of project.";
        "Tasks are ordered logically with dependencies to ensure smooth progression.";
        "Priority levels are assigned based on importance and dependencies.";
        "Time estimates are realistic and account for potential challenges." ].
Proof.
  intros plan. subst plan. unfold generate_task_breakdown.
  rewrite (breakdown_stages_falsy goal (PyInt 0) additional_context eq_refl).
  rewrite breakdown_stages_unfold.
  rewrite (customize_tasks_falsy _ _ _ PyNone eq_refl). cbn [bind].
  split; [reflexivity|]. split; [reflexivity|]. split.
  - cbn [tasks].
    rewrite (add_dependencies_keeps estimated_duration_hours) by reflexivity.
    apply customized_with_durations.
  - cbn [reasoning]. rewrite add_dependencies_length, customized_with_length.
    reflexivity.
Qed.

(** *** Priorities of the produced tasks *)

Lemma customize_tasks_ignores_baseline (p : string) (base_tasks : list archetype)
    (goal : string) (context : option string) (timeline_weeks : timeline) :
  _customize_tasks (with_priority p <$> base_tasks) goal context timeline_weeks =
  _customize_tasks base_tasks goal context timeline_weeks.
Proof.
  unfold _customize_tasks. rewrite length_fmap.
  apply customize_from_ignores_baseline.
Qed.

Lemma generated_priorities (goal : string) (timeline_weeks : timeline)
    (additional_context : option string) (t : task) :
  t ∈ tasks (generate_task_breakdown goal timeline_weeks additional_context) ->
  In (priority t) ["high"; "medium"; "low"].
Proof.
  unfold generate_task_breakdown.
  destruct (breakdown_stages goal timeline_weeks additional_context) as [plan|e] eqn:E.
  - rewrite breakdown_stages_unfold in E.
    destruct (_customize_tasks _ goal additional_context timeline_weeks)
      as [customized|] eqn:Ec; simpl in E; [|discriminate].
    injection E as <-. cbn [tasks]. intros Hin.
    assert (Hp : priority t ∈ priority <$> _add_dependencies customized)
      by (apply list_elem_of_fmap; eauto).
    rewrite (add_dependencies_keeps priority) in Hp by reflexivity.
    unfold _customize_tasks in Ec. apply customize_from_priority in Ec.
    change (map priority customized) with (priority <$> customized) in Ec.
    rewrite Ec in Hp. apply list_elem_of_In, in_map_iff in Hp as (base & <- & _).
    apply determine_priority_range.
  - simpl. intros Hin. apply list_elem_of_In in Hin. simpl in Hin.
    destruct Hin as [<- | [<- | [<- | [<- | []]]]]; simpl; auto.
Qed.

(** C4 (as stated): the scanned text is not the plain concatenation of
    title, goal and context.  For the archetype "Register Business
    Entity", the goal "Start a company that keeps parks clean" and the
    context "Up to five volunteers", the concatenation contains "cleanup"
    and would give low; the code scans "... clean up ..." and gives the
    default, medium. *)
Lemma priority_concatenation_counterexample :
  let title := "Register Business Entity" in
  let goal := "Start a company that keeps parks clean" in
  let context := Some "Up to five volunteers" in
  Stated.determine_priority title goal context = "low" /\
  _determine_priority title goal context = "medium".
Proof. split; vm_compute; reflexivity. Qed.

(** C4 (amended): the priority of a customized task is the first tier,
    in the order high, medium, low, whose keyword set has a substring hit
    in the lower-cased text "archetype title, one space, goal, one space,
    context (empty if absent)", and medium when no tier hits; the
    archetype's baseline priority is not consulted; and every task of
    every generated plan has priority high, medium or low, never
    urgent. *)
Theorem priority_by_keywords_only :
  (forall title goal context,
      _determine_priority title goal context =
      Stated.first_hit Stated.priority_rules "medium"
        (lower (title +:+ " " +:+ goal +:+ " " +:+ or_empty context))) /\
  map snd Stated.priority_rules = ["high"; "medium"; "low"] /\
  map fst Stated.priority_rules = map snd priority_keywords /\
  (forall base_tasks goal context timeline_weeks customized,
      _customize_tasks base_tasks goal context timeline_weeks = Return customized ->
      priority <$> customized =
      (fun base => _determine_priority (a_title base) goal context) <$> base_tasks) /\
  (forall p base_tasks goal context timeline_weeks,
      _customize_tasks (with_priority p <$> base_tasks) goal context timeline_weeks =
      _customize_tasks base_tasks goal context timeline_weeks) /\
  (forall goal timeline_weeks additional_context t,
      t ∈ tasks (generate_task_breakdown goal timeline_weeks additional_context) ->
      In (priority t) ["high"; "medium"; "low"] /\ priority t <> "urgent").
Proof.
  split; [|split; [|split; [|split; [|split]]]].
  - intros title goal context. apply determine_priority_first_hit.
  - reflexivity.
  - reflexivity.
  - intros base_tasks goal context timeline_weeks customized Hret.
    unfold _customize_tasks in Hret. now apply customize_from_priority in Hret.
  - intros. apply customize_tasks_ignores_baseline.
  - intros goal timeline_weeks additional_context t Hin.
    pose proof (generated_priorities _ _ _ _ Hin) as Hp.
    split; [exact Hp|]. simpl in Hp.
    destruct Hp as [<- | [<- | [<- | []]]]; discriminate.
Qed.

(** *** The deploy rule *)

(** C7 (as stated): a title with both "testing" and "deploy" takes the
    testing branch only.  In these drafts task 2, "Testing and Deploy",
    contains "deploy" and task 0, "Write Unit Tests", contains "test",
    but task 2 depends on task 1 alone. *)
Lemma deploy_rule_counterexample :
  let drafts :=
    [ Task "Write Unit Tests" "" "medium" 16 [] 0;
      Task "Create Documentation" "" "low" 12 [] 2;
      Task "Testing and Deploy" "" "high" 8 [] 4 ] in
  (title <$> drafts !! 2%nat) = Some "Testing and Deploy" /\
  str_in "deploy" (lower "Testing and Deploy") = true /\
  (title <$> drafts !! 0%nat) = Some "Write Unit Tests" /\
  str_in "test" (lower "Write Unit Tests") = true /\
  (dependencies <$> _add_dependencies drafts !! 2%nat) = Some [1%nat].
Proof. repeat split; vm_compute; reflexivity. Qed.

(** C7 (amended): for every drafts list, if the lower-cased title of the
    task at index [i] contains "deploy" and does not contain "testing",
    then its dependencies are exactly [i - 1] (when [i > 0]) and every
    earlier index [j < i] whose lower-cased title contains "test". *)
Theorem deploy_depends_on_tests (drafts : list task) (i : nat) (ti : task) :
  drafts !! i = Some ti ->
  str_in "deploy" (lower (title ti)) = true ->
  str_in "testing" (lower (title ti)) = false ->
  exists ti',
    _add_dependencies drafts !! i = Some ti' /\
    title ti' = title ti /\
    ((0 < i)%nat -> (i - 1)%nat ∈ dependencies ti') /\
    (forall j tj, (j < i)%nat -> drafts !! j = Some tj ->
                  str_in "test" (lower (title tj)) = true ->
                  j ∈ dependencies ti') /\
    (forall d, d ∈ dependencies ti' ->
               ((0 < i)%nat /\ d = (i - 1)%nat) \/
               ((d < i)%nat /\ exists tj, drafts !! d = Some tj /\
                                str_in "test" (lower (title tj)) = true)).
Proof.
  intros Hi Hdeploy Htesting.
  exists (set_dependencies ti (dependencies_at drafts i ti)).
  rewrite add_dependencies_lookup, Hi. simpl.
  split; [reflexivity|]. split; [reflexivity|].
  split; [|split].
  - intros Hpos. apply dependencies_at_elem. left. auto.
  - intros j tj Hj Hlook Htest. apply dependencies_at_elem.
    right. right. unfold is_test. eauto 8.
  - intros d Hd. apply dependencies_at_elem in Hd.
    destruct Hd as [H | [(Ht & _) | (_ & _ & Hlt & tj & Hlook & Htest)]].
    + left. exact H.
    + congruence.
    + right. unfold is_test in Htest. eauto.
Qed.

(** C7, at the product-launch plan: "Deploy to Production" (task 9)
    depends on task 8 and on the three test tasks 6, 7 and 8. *)
Lemma deploy_depends_on_tests_witness :
  exists drafts ti',
    _customize_tasks product_launch_tasks "Launch a product" None PyNone =
      Return drafts /\
    _add_dependencies drafts !! 9%nat = Some ti' /\
    title ti' = "Deploy to Production" /\
    6%nat ∈ dependencies ti' /\ 7%nat ∈ dependencies ti' /\ 8%nat ∈ dependencies ti'.
Proof.
  set (drafts := customized_with (fun d => d) "Launch a product" None 0
                                 product_launch_tasks).
  destruct (drafts !! 9%nat) as [ti|] eqn:Hi; [|vm_compute in Hi; discriminate].
  assert (Htitle : title ti = "Deploy to Production")
    by (vm_compute in Hi; injection Hi as <-; reflexivity).
  destruct (deploy_depends_on_tests drafts 9 ti Hi) as (ti' & Hl & Ht & Hprev & Hall & _).
  - rewrite Htitle. vm_compute. reflexivity.
  - rewrite Htitle. vm_compute. reflexivity.
  - exists drafts, ti'. split; [vm_compute; reflexivity|].
    split; [exact Hl|]. split; [congruence|].
    repeat split.
    + eapply (Hall 6%nat); [lia | vm_compute; reflexivity | vm_compute; reflexivity].
    + eapply (Hall 7%nat); [lia | vm_compute; reflexivity | vm_compute; reflexivity].
    + eapply (Hall 8%nat); [lia | vm_compute; reflexivity | vm_compute; reflexivity].
Defined.

(** *** Suggestions *)

(** C8: for every task title and context the suggestions are exactly
    the five generic ones; none of the domain-specific suggestions
    appended for "research", "implement"/"develop" or "test" survives the
    truncation to five entries. *)
Theorem suggestions_are_the_generic_five (current_task context : string) :
  generate_task_suggestions current_task context =
    [ "Break down into smaller, more specific subtasks";
      "Add measurable success criteria";
      "Consider potential blockers and mitigation strategies";
      "Set up regular check-ins or milestones";
      "Document lessons learned for future reference" ] /\
  length (generate_task_suggestions current_task context) = 5%nat /\
  (forall s, In s specific_suggestions ->
             ~ In s (generate_task_suggestions current_task context)).
Proof.
  assert (Heq : generate_task_suggestions current_task context = generic_suggestions).
  { unfold generate_task_suggestions.
    destruct (str_in "research" (lower current_task)); [reflexivity|].
    destruct (str_in "implement" (lower current_task)
              || str_in "develop" (lower current_task)); [reflexivity|].
    destruct (str_in "test" (lower current_task)); reflexivity. }
  rewrite Heq. split; [reflexivity|]. split; [reflexivity|].
  intros s Hs Hin. simpl in Hs, Hin.
  repeat (destruct Hs as [<- | Hs]);
    try (repeat (destruct Hin as [Hin | Hin]; try discriminate Hin); contradiction).
Qed.

(** C10: the suggestions do not depend on the context argument: any two
    contexts give the same result for the same title. *)
Theorem suggestions_ignore_context (current_task context1 context2 : string) :
  generate_task_suggestions current_task context1 =
  generate_task_suggestions current_task context2.
Proof.
  unfold generate_task_suggestions.
  destruct (str_in "research" (lower current_task)); [reflexivity|].
  destruct (str_in "implement" (lower current_task)
            || str_in "develop" (lower current_task)); reflexivity.
Qed.

(** ** Further properties of the service *)

(** *** Strings: lower-casing and substrings under concatenation *)



Lemma app_nil_str (b : string) : "" +:+ b = b.
Proof. reflexivity. Qed.

Lemma app_cons_str (c : ascii) (a b : string) :
  String c a +:+ b = String c (a +:+ b).
Proof. reflexivity. Qed.

Lemma lower_app (a b : string) : lower (a +:+ b) = lower a +:+ lower b.
Proof.
  induction a as [|c a IH]; [reflexivity|].
  rewrite app_cons_str. simpl. now rewrite IH.
Qed.

Lemma prefix_app (sub a b : string) :
  String.prefix sub a = true -> String.prefix sub (a +:+ b) = true.
Proof.
  revert a. induction sub as [|c sub IH]; intros a.
  - intros _. now destruct (a +:+ b).
  - destruct a as [|c' a]; [discriminate|].
    rewrite app_cons_str. simpl.
    destruct (Ascii.ascii_dec c c'); [apply IH | easy].
Qed.

Lemma str_in_app_l (sub a b : string) :
  str_in sub a = true -> str_in sub (a +:+ b) = true.
Proof.
  induction a as [|c a IH].
  - simpl. rewrite orb_false_r. destruct sub; [|discriminate].
    intros _. rewrite app_nil_str. now destruct b.
  - rewrite app_cons_str. cbn [str_in].
    intros [Hp | Hin]%orb_true_iff; apply orb_true_iff.
    + left. rewrite <- app_cons_str. now apply prefix_app.
    + right. now apply IH.
Qed.

Lemma str_in_app_r (sub a b : string) :
  str_in sub b = true -> str_in sub (a +:+ b) = true.
Proof.
  intros Hb. induction a as [|c a IH]; [exact Hb|].
  rewrite app_cons_str. cbn [str_in]. rewrite IH. apply orb_true_r.
Qed.

Lemma any_in_app_l (words : list string) (a b : string) :
  any_in words a = true -> any_in words (a +:+ b) = true.
Proof.
  unfold any_in. rewrite !existsb_exists.
  intros (w & Hw & Hin). exists w. split; [exact Hw | now apply str_in_app_l].
Qed.

Lemma any_in_app_r (words : list string) (a b : string) :
  any_in words b = true -> any_in words (a +:+ b) = true.
Proof.
  unfold any_in. rewrite !existsb_exists.
  intros (w & Hw & Hin). exists w. split; [exact Hw | now apply str_in_app_r].
Qed.

Lemma str_in_prefix_false (sub s : string) :
  str_in sub s = false -> String.prefix sub s = false.
Proof. destruct s; simpl; intros H; apply orb_false_iff in H; apply H. Qed.

(** [s.replace(old, new)] is [s] when [old] does not occur in [s]. *)
Lemma replace_absent (old new s : string) :
  str_in old s = false -> replace old new s = s.
Proof.
  unfold replace. induction s as [|c s IH]; [reflexivity|].
  intros H. cbn [replace_from]. rewrite (str_in_prefix_false _ _ H).
  cbn [str_in] in H. apply orb_false_iff in H as [_ H]. now rewrite IH.
Qed.

(** *** Classification *)

(** Every classification result is a key of the template table, so the
    default of [task_templates.get] is never used and the catalog has 10
    or 12 archetypes. *)
Theorem classification_has_a_catalog (goal : string) (context : option string) :
  In (_analyze_goal_type goal context) goal_types /\
  task_templates !! _analyze_goal_type goal context = Some (catalog_for goal context) /\
  (length (catalog_for goal context) = 10%nat \/
   length (catalog_for goal context) = 12%nat).
Proof.
  unfold catalog_for, _analyze_goal_type.
  repeat match goal with |- context [if ?b then _ else _] => destruct b end;
    (split; [simpl; tauto | split; [vm_compute; reflexivity | vm_compute; auto]]).
Qed.



(** *** Titles *)

(** The customization looks for "Product" in the base title with the
    letter case as written: a lower-cased base title is left alone where
    the original is changed. *)
Lemma title_customization_case_example :
  _customize_task_title "Define Product Requirements" "Build an app" None =
    "Define App Requirements" /\
  _customize_task_title (lower "Define Product Requirements") "Build an app" None =
    "define product requirements".
Proof. split; vm_compute; reflexivity. Qed.

(** A title without "Product" is never changed by the customization,
    whatever the goal. *)
Theorem title_without_product_unchanged (base_title goal : string)
    (context : option string) :
  str_in "Product" base_title = false ->
  _customize_task_title base_title goal context = base_title.
Proof.
  intros H. unfold _customize_task_title.
  repeat match goal with |- context [if ?b then _ else _] => destruct b end;
    try reflexivity; now apply replace_absent.
Qed.

Lemma title_without_product_unchanged_witness :
  _customize_task_title "Define App Requirements" "Launch a mobile app" None =
  "Define App Requirements".
Proof.
  apply (title_without_product_unchanged "Define App Requirements"
           "Launch a mobile app" None).
  vm_compute. reflexivity.
Defined.

Lemma customize_from_titles (count : nat) (goal : string) (context : option string)
    (timeline_weeks : timeline) (rest : list archetype) :
  forall (i : nat) (customized : list task),
    customize_from count goal context timeline_weeks i rest = Return customized ->
    title <$> customized =
    (fun base => _customize_task_title (a_title base) goal context) <$> rest.
Proof.
  induction rest as [|base rest IH]; intros i customized; simpl.
  - intros [= <-]. reflexivity.
  - destruct (scale_duration timeline_weeks count (a_duration base)); simpl; [|discriminate].
    destruct (customize_from count goal context timeline_weeks (S i) rest) eqn:E;
      simpl; [|discriminate].
    intros [= <-]. simpl. f_equal. eapply IH. exact E.
Qed.

Lemma mentions_app_is_mobile (goal : string) (context : option string) :
  str_in "app" (lower goal) || str_in "mobile" (lower goal) = true ->
  _analyze_goal_type goal context = "mobile_app".
Proof.
  intros H. unfold _analyze_goal_type.
  rewrite lower_app.
  rewrite (any_in_app_l ["app"; "mobile"; "ios"; "android"; "react native"]);
    [reflexivity|].
  unfold any_in. simpl.
  apply orb_true_iff in H as [-> | ->]; simpl; auto using orb_true_r.
Qed.

(** A goal that mentions "app" or "mobile" is always a mobile_app, with
    any context, and the tasks of its plan carry the titles of the
    mobile-app catalog unchanged: the substitution of "App" for "Product"
    never shows in a generated plan. *)
Theorem app_goal_keeps_catalog_titles (goal : string) (timeline_weeks : timeline)
    (additional_context : option string) (plan : breakdown) :
  str_in "app" (lower goal) || str_in "mobile" (lower goal) = true ->
  breakdown_stages goal timeline_weeks additional_context = Return plan ->
  _analyze_goal_type goal additional_context = "mobile_app" /\
  title <$> tasks plan = a_title <$> mobile_app_tasks.
Proof.
  intros Happ Hret.
  pose proof (mentions_app_is_mobile goal additional_context Happ) as Htype.
  split; [exact Htype|].
  rewrite breakdown_stages_unfold in Hret. unfold catalog_for in Hret.
  rewrite Htype in Hret.
  change (default product_launch_tasks (task_templates !! "mobile_app"))
    with mobile_app_tasks in Hret.
  destruct (_customize_tasks mobile_app_tasks goal additional_context timeline_weeks)
    as [customized|] eqn:Ec; simpl in Hret; [|discriminate].
  injection Hret as <-. cbn [tasks].
  rewrite (add_dependencies_keeps title) by reflexivity.
  unfold _customize_tasks in Ec. apply customize_from_titles in Ec. rewrite Ec.
  apply Forall_fmap_ext_1.
  repeat constructor; cbv beta; unfold _customize_task_title;
    rewrite Happ; reflexivity.
Qed.

Lemma app_goal_keeps_catalog_titles_witness :
  title <$> tasks (generate_task_breakdown "Launch a mobile app in 3 weeks" (PyInt 3)
                     (Some "Solo developer")) =
  a_title <$> mobile_app_tasks.
Proof.
  apply (app_goal_keeps_catalog_titles "Launch a mobile app in 3 weeks" (PyInt 3)
           (Some "Solo developer")).
  - vm_compute. reflexivity.
  - vm_compute. reflexivity.
Defined.

(** *** Priorities *)

Lemma high_keyword_gives_high (title goal : string) (context : option string) :
  any_in high_keywords (lower goal) = true \/
  any_in high_keywords (lower (or_empty context)) = true ->
  _determine_priority title goal context = "high".
Proof.
  intros H. unfold _determine_priority.
  rewrite !lower_app.
  assert (Hhit : any_in high_keywords
                   (lower title +:+ lower " " +:+ lower goal +:+ lower " "
                      +:+ lower (or_empty context)) = true).
  { apply any_in_app_r, any_in_app_r. destruct H as [H | H].
    - now apply any_in_app_l.
    - now apply any_in_app_r, any_in_app_r. }
  unfold priority_keywords. cbn [scan_priority].
  change ["urgent"; "critical"; "essential"; "immediate"; "launch";
          "deadline"; "core"; "main"; "primary"] with high_keywords.
  now rewrite Hhit.
Qed.

(** One high-priority keyword ("urgent", "launch", "core", ...) in the
    goal or in the context makes every task of the plan high priority,
    whatever its title. *)
Theorem high_keyword_makes_every_task_high (goal : string)
    (timeline_weeks : timeline) (additional_context : option string)
    (plan : breakdown) (t : task) :
  any_in high_keywords (lower goal) = true \/
  any_in high_keywords (lower (or_empty additional_context)) = true ->
  breakdown_stages goal timeline_weeks additional_context = Return plan ->
  t ∈ tasks plan ->
  priority t = "high".
Proof.
  intros Hkw Hret Hin.
  rewrite breakdown_stages_unfold in Hret.
  destruct (_customize_tasks _ goal additional_context timeline_weeks)
    as [customized|] eqn:Ec; simpl in Hret; [|discriminate].
  injection Hret as <-. cbn [tasks] in Hin.
  assert (Hp : priority t ∈ priority <$> _add_dependencies customized)
    by (apply list_elem_of_fmap; eauto).
  rewrite (add_dependencies_keeps priority) in Hp by reflexivity.
  unfold _customize_tasks in Ec. apply customize_from_priority in Ec.
  change (map priority customized) with (priority <$> customized) in Ec.
  rewrite Ec in Hp. apply list_elem_of_In, in_map_iff in Hp as (base & <- & _).
  now apply high_keyword_gives_high.
Qed.

Lemma high_keyword_makes_every_task_high_witness :
  exists t,
    tasks (generate_task_breakdown "Launch a mobile app in 3 weeks" (PyInt 3) None)
      !! 10%nat = Some t /\
    title t = "Submit for Review" /\ priority t = "high".
Proof.
  eexists. split; [vm_compute; reflexivity|]. split; [reflexivity|].
  apply (high_keyword_makes_every_task_high "Launch a mobile app in 3 weeks"
           (PyInt 3) None
           (generate_task_breakdown "Launch a mobile app in 3 weeks" (PyInt 3) None)).
  - left. vm_compute. reflexivity.
  - vm_compute. reflexivity.
  - vm_compute. repeat constructor.
Defined.

(** *** Dependencies *)

(** In every generated plan the first task has no dependency and every
    later task depends on the task just before it. *)
Theorem generated_plan_is_chained (goal : string) (timeline_weeks : timeline)
    (additional_context : option string) (i : nat) (t : task) :
  tasks (generate_task_breakdown goal timeline_weeks additional_context) !! i = Some t ->
  (i = 0%nat -> dependencies t = []) /\
  ((0 < i)%nat -> (i - 1)%nat ∈ dependencies t).
Proof.
  unfold generate_task_breakdown.
  destruct (breakdown_stages goal timeline_weeks additional_context) as [plan|e] eqn:E.
  - rewrite breakdown_stages_unfold in E.
    destruct (_customize_tasks _ goal additional_context timeline_weeks)
      as [customized|]; simpl in E; [|discriminate].
    injection E as <-. cbn [tasks]. rewrite add_dependencies_lookup.
    destruct (customized !! i) as [t0|]; simpl; [|discriminate].
    intros [= <-]. simpl. split.
    + intros ->. destruct (dependencies_at customized 0 t0) as [|d rest] eqn:Hd;
        [reflexivity|].
      assert (Hin : d ∈ dependencies_at customized 0 t0)
        by (rewrite Hd; apply list_elem_of_here).
      apply dependencies_at_backward in Hin. lia.
    + intros Hpos. apply dependencies_at_elem. left. auto.
  - simpl. destruct i as [|[|[|[|i]]]]; simpl; try discriminate;
      intros [= <-]; simpl;
      (split; [intros Hzero; try reflexivity; lia
              | intros Hpos; try lia; apply list_elem_of_here]).
Qed.

Lemma generated_plan_is_chained_witness :
  exists t,
    tasks (generate_task_breakdown "Organise a conference" PyNone None) !! 5%nat
      = Some t /\
    4%nat ∈ dependencies t.
Proof.
  eexists. split; [vm_compute; reflexivity|].
  apply (generated_plan_is_chained "Organise a conference" PyNone None 5%nat).
  - vm_compute. reflexivity.
  - lia.
Defined.

Lemma set_dependencies_twice (t : task) (deps1 deps2 : list nat) :
  set_dependencies (set_dependencies t deps1) deps2 = set_dependencies t deps2.
Proof. reflexivity. Qed.

(** [_add_dependencies] reads only titles and writes only
    dependencies: it keeps the number of tasks and every other field, the
    dependencies it was given do not matter, and a second run changes
    nothing. *)
Theorem add_dependencies_rewrites_dependencies_only (drafts : list task) :
  length (_add_dependencies drafts) = length drafts /\
  title <$> _add_dependencies drafts = title <$> drafts /\
  description <$> _add_dependencies drafts = description <$> drafts /\
  priority <$> _add_dependencies drafts = priority <$> drafts /\
  estimated_duration_hours <$> _add_dependencies drafts =
    estimated_duration_hours <$> drafts /\
  due_date_offset_days <$> _add_dependencies drafts = due_date_offset_days <$> drafts /\
  (forall deps, _add_dependencies ((fun t => set_dependencies t deps) <$> drafts) =
                _add_dependencies drafts) /\
  _add_dependencies (_add_dependencies drafts) = _add_dependencies drafts.
Proof.
  assert (Hany : forall others : list task,
             title <$> others = title <$> drafts ->
             (forall i t t', others !! i = Some t -> drafts !! i = Some t' ->
                             forall deps, set_dependencies t deps = set_dependencies t' deps) ->
             _add_dependencies others = _add_dependencies drafts).
  { intros others Htitles Hsame. apply list_eq. intros i.
    rewrite !add_dependencies_lookup.
    assert (Hlen : length others = length drafts)
      by (rewrite <- (length_fmap title others), Htitles; apply length_fmap).
    destruct (others !! i) as [t|] eqn:Ho; destruct (drafts !! i) as [t'|] eqn:Hd;
      simpl; try reflexivity.
    - rewrite (dependencies_at_titles others drafts i t Htitles).
      assert (Ht : title t = title t').
      { apply (f_equal (fun l => l !! i)) in Htitles.
        rewrite !list_lookup_fmap, Ho, Hd in Htitles. now injection Htitles. }
      f_equal. rewrite (Hsame i t t' Ho Hd).
      unfold dependencies_at. now rewrite Ht.
    - apply lookup_lt_Some in Ho. apply lookup_ge_None in Hd. lia.
    - apply lookup_lt_Some in Hd. apply lookup_ge_None in Ho. lia. }
  repeat split; try (apply add_dependencies_keeps; reflexivity).
  - apply add_dependencies_length.
  - intros deps. apply Hany.
    + rewrite <- list_fmap_compose. reflexivity.
    + intros i t t' Ho Hd deps'. rewrite list_lookup_fmap, Hd in Ho.
      injection Ho as <-. reflexivity.
  - apply Hany.
    + apply add_dependencies_keeps. reflexivity.
    + intros i t t' Ho Hd deps'. rewrite add_dependencies_lookup, Hd in Ho.
      injection Ho as <-. reflexivity.
Qed.

(** The testing rule: a task whose lower-cased title contains "testing"
    depends exactly on its predecessor and on every earlier task whose
    title contains "implement" or "develop". *)
Theorem testing_depends_on_implementation (drafts : list task) (i : nat) (ti : task) :
  drafts !! i = Some ti ->
  str_in "testing" (lower (title ti)) = true ->
  exists ti',
    _add_dependencies drafts !! i = Some ti' /\
    forall d, d ∈ dependencies ti' <->
              ((0 < i)%nat /\ d = (i - 1)%nat) \/
              ((d < i)%nat /\
               exists tj, drafts !! d = Some tj /\
                          (str_in "implement" (lower (title tj)) = true \/
                           str_in "develop" (lower (title tj)) = true)).
Proof.
  intros Hi Htesting.
  exists (set_dependencies ti (dependencies_at drafts i ti)).
  rewrite add_dependencies_lookup, Hi. split; [reflexivity|].
  intros d. simpl. rewrite dependencies_at_elem, Htesting.
  unfold is_implementation. setoid_rewrite orb_true_iff.
  split.
  - intros [H | [(_ & H) | (H & _)]]; [now left | now right | discriminate].
  - intros [H | H]; [now left | right; left; auto].
Qed.

Lemma testing_depends_on_implementation_witness :
  exists drafts ti',
    _customize_tasks mobile_app_tasks "Build an app" None PyNone = Return drafts /\
    _add_dependencies drafts !! 7%nat = Some ti' /\
    3%nat ∈ dependencies ti' /\ 4%nat ∈ dependencies ti' /\ 6%nat ∈ dependencies ti'.
Proof.
  set (drafts := customized_with (fun d => d) "Build an app" None 0 mobile_app_tasks).
  destruct (drafts !! 7%nat) as [ti|] eqn:Hi; [|vm_compute in Hi; discriminate].
  assert (Htitle : title ti = "Testing and Bug Fixes")
    by (vm_compute in Hi; injection Hi as <-; reflexivity).
  destruct (testing_depends_on_implementation drafts 7 ti Hi) as (ti' & Hl & Hdeps).
  - rewrite Htitle. vm_compute. reflexivity.
  - exists drafts, ti'. split; [vm_compute; reflexivity|].
    split; [exact Hl|]. repeat split; apply Hdeps.
    + right. split; [lia|]. eexists. split; [vm_compute; reflexivity|].
      left. vm_compute. reflexivity.
    + right. split; [lia|]. eexists. split; [vm_compute; reflexivity|].
      right. vm_compute. reflexivity.
    + left. split; [lia | reflexivity].
Defined.

(** A task whose title contains neither "testing" nor "deploy" depends
    on its predecessor only. *)
Theorem plain_task_depends_on_predecessor (drafts : list task) (i : nat) (ti : task) :
  drafts !! i = Some ti ->
  str_in "testing" (lower (title ti)) = false ->
  str_in "deploy" (lower (title ti)) = false ->
  exists ti',
    _add_dependencies drafts !! i = Some ti' /\
    dependencies ti' = if (0 <? i)%nat then [(i - 1)%nat] else [].
Proof.
  intros Hi Htesting Hdeploy.
  exists (set_dependencies ti (dependencies_at drafts i ti)).
  rewrite add_dependencies_lookup, Hi. split; [reflexivity|].
  simpl. unfold dependencies_at. rewrite Htesting, Hdeploy.
  destruct (0 <? i)%nat.
  - change (list_to_set [(i - 1)%nat] : gset nat) with ({[(i - 1)%nat]} ∪ ∅ : gset nat).
    rewrite (right_id_L ∅ (∪)). apply elements_singleton.
  - apply elements_empty.
Qed.

Lemma plain_task_depends_on_predecessor_witness :
  exists ti',
    _add_dependencies (_get_fallback_tasks "the garden") !! 1%nat = Some ti' /\
    dependencies ti' = [0%nat].
Proof.
  destruct (plain_task_depends_on_predecessor (_get_fallback_tasks "the garden") 1%nat
              (Task "Implement Core Features for the garden"
                    "Implement the main functionality for the garden"
                    "high" 16 [0%nat] 2))
    as (ti' & Hl & Hd); try (vm_compute; reflexivity).
  exists ti'. split; [exact Hl | exact Hd].
Defined.

(** *** Durations under any timeline *)

Section AnyTimeline.

Local Open Scope Z_scope.

Lemma round_quotient_nonneg (a b : Z) :
  0 <= a -> 0 < b -> 0 <= fl_m (round_quotient a b).
Proof.
  intros Ha Hb. unfold round_quotient. cbn [fl_m].
  set (e := Z.max (binade a b - 52) (-1074)).
  destruct (0 <=? e) eqn:He.
  - apply Z.leb_le in He.
    assert (0 < b * 2 ^ e) by (apply Z.mul_pos_pos; [lia | apply Z.pow_pos_nonneg; lia]).
    pose proof (round_half_even_bounds a (b * 2 ^ e) ltac:(lia)) as [Hlo _].
    pose proof (Z.div_pos a (b * 2 ^ e) ltac:(lia) ltac:(lia)). lia.
  - apply Z.leb_gt in He.
    assert (0 < 2 ^ (- e)) by (apply Z.pow_pos_nonneg; lia).
    pose proof (round_half_even_bounds (a * 2 ^ (- e)) b Hb) as [Hlo _].
    pose proof (Z.div_pos (a * 2 ^ (- e)) b ltac:(nia) Hb). lia.
Qed.

(** A positive duration exceeds every quotient that is not positive. *)
Lemma guard_negative (d m e : Z) :
  0 < d -> 0 <= m -> int_gt_float d (PyFloat (-1 * m) e) = true.
Proof.
  intros Hd Hm. unfold int_gt_float. cbn [fl_m fl_e].
  destruct (0 <=? e) eqn:He; apply Z.ltb_lt.
  - apply Z.leb_le in He.
    assert (0 < 2 ^ e) by (apply Z.pow_pos_nonneg; lia). nia.
  - apply Z.leb_gt in He.
    assert (0 < 2 ^ (- e)) by (apply Z.pow_pos_nonneg; lia). nia.
Qed.

(** An [int] timeline within the range of a float never raises. *)
Lemma scale_duration_int_returns (weeks : Z) (count : nat) (duration : Z) :
  - 2 ^ 1023 < weeks * 40 < 2 ^ 1023 -> (0 < count)%nat ->
  scale_duration (PyInt weeks) count duration =
  Return (scaled_or_baseline (PyInt weeks) count duration).
Proof.
  intros Hrange Hc. unfold scaled_or_baseline.
  destruct (scale_duration (PyInt weeks) count duration) as [d'|e] eqn:E;
    [reflexivity|exfalso].
  unfold scale_duration in E. destruct (truthy (PyInt weeks)); [|discriminate].
  unfold int_truediv in E.
  destruct (weeks * 40 =? 0) eqn:Hz.
  - simpl in E. destruct (int_gt_float duration _); discriminate.
  - apply Z.eqb_neq in Hz.
    rewrite round_quotient_in_range in E by lia.
    simpl in E. destruct (int_gt_float duration _); discriminate.
Qed.

(** A negative timeline clamps every positive baseline to 4 hours. *)
Lemma scale_duration_negative (weeks : Z) (count : nat) (duration : Z) :
  weeks < 0 -> - 2 ^ 1023 < weeks * 40 -> (0 < count)%nat -> 0 < duration ->
  scale_duration (PyInt weeks) count duration = Return 4.
Proof.
  intros Hw Hrange Hc Hd. unfold scale_duration, truthy.
  destruct (Z.eqb_spec weeks 0) as [|_]; [lia|]. simpl negb. cbv iota.
  unfold int_truediv.
  destruct (Z.eqb_spec (weeks * 40) 0) as [|_]; [lia|].
  rewrite round_quotient_in_range by lia.
  rewrite Z.sgn_neg by lia. simpl bind.
  rewrite guard_negative by (try apply round_quotient_nonneg; lia).
  f_equal.
  assert (weeks * 40 / Z.of_nat count < 0)
    by (apply Z.div_lt_upper_bound; lia).
  lia.
Qed.

(** Whatever the timeline, a duration that is returned lies between
    the baseline and 4 hours. *)
Lemma scale_duration_bounds (timeline_weeks : timeline) (count : nat)
    (duration scaled : Z) :
  (0 < count)%nat -> duration * Z.of_nat count <= 2 ^ 53 ->
  scale_duration timeline_weeks count duration = Return scaled ->
  Z.min duration 4 <= scaled <= Z.max duration 4.
Proof.
  intros Hc Hsmall. unfold scale_duration.
  destruct (truthy timeline_weeks); [|intros [= <-]; lia].
  destruct timeline_weeks as [|weeks|s]; [intros [= <-]; lia | | discriminate].
  unfold int_truediv.
  destruct (Z.eqb_spec (weeks * 40) 0) as [Hz | Hz].
  - simpl. rewrite Hz, Zdiv_0_l.
    destruct (int_gt_float duration _); intros [= <-]; lia.
  - destruct (too_large _); [discriminate|]. simpl bind.
    destruct (Z.lt_total (weeks * 40) 0) as [Hneg | [? | Hpos]]; [| lia |].
    + assert (weeks * 40 / Z.of_nat count < 0)
        by (apply Z.div_lt_upper_bound; lia).
      destruct (int_gt_float duration _); intros [= <-]; lia.
    + rewrite Z.abs_eq, Z.sgn_pos by lia.
      replace (int_gt_float duration _)
        with (int_gt_float duration (round_quotient (weeks * 40) (Z.of_nat count)))
        by (unfold int_gt_float; simpl; now rewrite Z.mul_1_l).
      rewrite guard_exact by lia.
      destruct (Z.ltb_spec (weeks * 40) (duration * Z.of_nat count)) as [Hlt | Hge];
        intros [= <-]; [|lia].
      assert (weeks * 40 / Z.of_nat count < duration)
        by (apply Z.div_lt_upper_bound; lia).
      lia.
Qed.

Lemma customize_from_durations (count : nat) (goal : string) (context : option string)
    (timeline_weeks : timeline) (rest : list archetype) :
  forall (i : nat) (customized : list task),
    customize_from count goal context timeline_weeks i rest = Return customized ->
    Forall2 (fun base t =>
               scale_duration timeline_weeks count (a_duration base) =
               Return (estimated_duration_hours t)) rest customized.
Proof.
  induction rest as [|base rest IH]; intros i customized; simpl.
  - intros [= <-]. constructor.
  - destruct (scale_duration timeline_weeks count (a_duration base)) eqn:Es;
      simpl; [|discriminate].
    destruct (customize_from count goal context timeline_weeks (S i) rest) eqn:E;
      simpl; [|discriminate].
    intros [= <-]. constructor; [exact Es | eapply IH; exact E].
Qed.

Lemma total_hours_bound (c : Z) (l : list task) :
  Forall (fun t => estimated_duration_hours t <= c) l ->
  total_hours l <= c * Z.of_nat (length l).
Proof.
  induction 1 as [|t l Ht _ IH]; [simpl; lia|].
  cbn [length]. rewrite Nat2Z.inj_succ.
  change (total_hours (t :: l)) with (estimated_duration_hours t + total_hours l).
  lia.
Qed.

Lemma total_hours_nonneg (l : list task) :
  Forall (fun t => 0 <= estimated_duration_hours t) l -> 0 <= total_hours l.
Proof.
  induction 1 as [|t l Ht _ IH]; [simpl; lia|].
  change (total_hours (t :: l)) with (estimated_duration_hours t + total_hours l).
  lia.
Qed.

Lemma total_hours_add_dependencies (l : list task) :
  total_hours (_add_dependencies l) = total_hours l.
Proof.
  assert (Hfmap : forall l', total_hours l' =
                             foldr Z.add 0 (estimated_duration_hours <$> l'))
    by (induction l' as [|t l' IH]; [reflexivity|];
        change (total_hours (t :: l'))
          with (estimated_duration_hours t + total_hours l');
        rewrite IH; reflexivity).
  rewrite !Hfmap. now rewrite (add_dependencies_keeps estimated_duration_hours).
Qed.

Lemma catalog_baselines (goal : string) (context : option string) :
  Forall (fun base => 2 <= a_duration base <= 60 /\
                      (4 <= a_duration base \/
                       a_duration base
                       * Z.of_nat (length (catalog_for goal context)) <= 40))
         (catalog_for goal context).
Proof.
  pose proof (catalog_for_cases goal context) as H. simpl in H.
  destruct H as [<- | [<- | [<- | [<- | [<- | []]]]]];
    apply Forall_forall; intros base Hin; apply list_elem_of_In in Hin;
    simpl in Hin;
    repeat (destruct Hin as [<- | Hin]; [cbn; lia|]); contradiction.
Qed.

Lemma catalog_length (goal : string) (context : option string) :
  (10 <= length (catalog_for goal context) <= 12)%nat.
Proof.
  pose proof (catalog_for_cases goal context) as H. simpl in H.
  destruct H as [<- | [<- | [<- | [<- | [<- | []]]]]]; simpl; lia.
Qed.

End AnyTimeline.

Lemma customize_from_offsets (count : nat) (goal : string) (context : option string)
    (timeline_weeks : timeline) (rest : list archetype) :
  forall (i : nat) (customized : list task),
    customize_from count goal context timeline_weeks i rest = Return customized ->
    forall k t, customized !! k = Some t ->
                due_date_offset_days t = ((i + k) * 2)%nat.
Proof.
  induction rest as [|base rest IH]; intros i customized; simpl.
  - intros [= <-] k t Hk. discriminate.
  - destruct (scale_duration timeline_weeks count (a_duration base)); simpl; [|discriminate].
    destruct (customize_from count goal context timeline_weeks (S i) rest) eqn:E;
      simpl; [|discriminate].
    intros [= <-] [|k] t Hk; simpl in Hk.
    + injection Hk as <-. simpl. f_equal. lia.
    + rewrite (IH _ _ E k t Hk). f_equal. lia.
Qed.

(** In every generated plan, fallback included, the task at position
    [i] is due [2 * i] days after the start. *)
Theorem offsets_are_two_days_apart (goal : string) (timeline_weeks : timeline)
    (additional_context : option string) (i : nat) (t : task) :
  tasks (generate_task_breakdown goal timeline_weeks additional_context) !! i = Some t ->
  due_date_offset_days t = (2 * i)%nat.
Proof.
  unfold generate_task_breakdown.
  destruct (breakdown_stages goal timeline_weeks additional_context) as [plan|e] eqn:E.
  - rewrite breakdown_stages_unfold in E.
    destruct (_customize_tasks _ goal additional_context timeline_weeks)
      as [customized|] eqn:Ec; simpl in E; [|discriminate].
    injection E as <-. cbn [tasks]. rewrite add_dependencies_lookup.
    destruct (customized !! i) as [t0|] eqn:Hi; simpl; [|discriminate].
    intros [= <-]. simpl.
    unfold _customize_tasks in Ec.
    rewrite (customize_from_offsets _ _ _ _ _ _ _ Ec i t0 Hi). lia.
  - simpl. destruct i as [|[|[|[|i]]]]; simpl; try discriminate;
      intros [= <-]; reflexivity.
Qed.

Lemma offsets_are_two_days_apart_witness :
  exists t,
    tasks (generate_task_breakdown "Learn Rust" (PyInt 2) None) !! 9%nat = Some t /\
    due_date_offset_days t = 18%nat.
Proof.
  eexists. split; [vm_compute; reflexivity|].
  apply (offsets_are_two_days_apart "Learn Rust" (PyInt 2) None 9%nat).
  vm_compute. reflexivity.
Defined.

Lemma scaled_durations_bounded (count : nat) (timeline_weeks : timeline)
    (rest : list archetype) (customized : list task) :
  (0 < count <= 12)%nat ->
  Forall2 (fun base t =>
             scale_duration timeline_weeks count (a_duration base) =
             Return (estimated_duration_hours t)) rest customized ->
  Forall (fun base => (2 <= a_duration base <= 60)%Z) rest ->
  Forall (fun t => (2 <= estimated_duration_hours t <= 60)%Z) customized.
Proof.
  intros Hcount Hdur. induction Hdur as [|base t rest l Hs _ IH]; intros Hbase;
    [constructor|].
  apply Forall_cons in Hbase as [Hb Hrest].
  constructor; [|apply IH; assumption].
  apply scale_duration_bounds in Hs; [lia | lia |].
  transitivity (60 * 12)%Z; [nia | vm_compute; discriminate].
Qed.

(** Every task of every generated plan lasts between 2 and 60 hours and
    the plan between 1 and 90 days, whatever the timeline: zero, negative,
    huge or malformed. *)
Theorem generated_durations_are_bounded (goal : string) (timeline_weeks : timeline)
    (additional_context : option string) :
  let plan := generate_task_breakdown goal timeline_weeks additional_context in
  Forall (fun t => (2 <= estimated_duration_hours t <= 60)%Z) (tasks plan) /\
  (1 <= estimated_duration_days plan <= 90)%Z.
Proof.
  intros plan. subst plan. unfold generate_task_breakdown.
  destruct (breakdown_stages goal timeline_weeks additional_context) as [plan|e] eqn:E.
  - rewrite breakdown_stages_unfold in E.
    destruct (_customize_tasks _ goal additional_context timeline_weeks)
      as [customized|] eqn:Ec; simpl in E; [|discriminate].
    injection E as <-. cbn [tasks estimated_duration_days].
    unfold _customize_tasks in Ec.
    pose proof (customize_from_durations _ _ _ _ _ _ _ Ec) as Hdur.
    pose proof (catalog_baselines goal additional_context) as Hbase.
    pose proof (catalog_length goal additional_context) as Hlen.
    assert (Hc : Forall (fun t => (2 <= estimated_duration_hours t <= 60)%Z) customized).
    { eapply scaled_durations_bounded; [| exact Hdur |]; [lia|].
      eapply Forall_impl; [exact Hbase|]. simpl. tauto. }
    assert (Hlen' : length customized = length (catalog_for goal additional_context))
      by (symmetry; eapply Forall2_length; exact Hdur).
    split.
    + apply Forall_forall. intros t Hin.
      assert (Hh : estimated_duration_hours t ∈
                   estimated_duration_hours <$> _add_dependencies customized)
        by (apply list_elem_of_fmap; eauto).
      rewrite (add_dependencies_keeps estimated_duration_hours) in Hh by reflexivity.
      apply list_elem_of_fmap in Hh as (t' & -> & Hin').
      rewrite Forall_forall in Hc. now apply Hc.
    + unfold estimated_days_of. rewrite total_hours_add_dependencies.
      assert (Hup : (total_hours customized <= 60 * Z.of_nat (length customized))%Z).
      { apply total_hours_bound. eapply Forall_impl; [exact Hc|]. simpl. lia. }
      assert ((total_hours customized / 8 <= 90)%Z)
        by (apply Z.div_le_upper_bound; lia).
      lia.
  - simpl. split; [|lia]. repeat constructor; simpl; lia.
Qed.

(** A negative timeline is not rejected: for every archetype list with
    positive baselines the customization returns and gives every task
    exactly 4 hours. *)
Theorem negative_timeline_gives_four_hours (base_tasks : list archetype)
    (goal : string) (context : option string) (weeks : Z) :
  (weeks < 0)%Z -> (- 2 ^ 1023 < weeks * 40)%Z ->
  Forall (fun base => (0 < a_duration base)%Z) base_tasks ->
  exists customized,
    _customize_tasks base_tasks goal context (PyInt weeks) = Return customized /\
    estimated_duration_hours <$> customized = (fun _ => 4%Z) <$> base_tasks /\
    total_hours customized = (4 * Z.of_nat (length base_tasks))%Z.
Proof.
  intros Hw Hrange Hpos.
  exists (customized_with (fun _ => 4%Z) goal context 0 base_tasks).
  split; [|split].
  - unfold _customize_tasks. apply customize_from_returns.
    apply Forall_forall. intros base Hin.
    apply scale_duration_negative; try assumption.
    + destruct base_tasks; [inversion Hin | simpl; lia].
    + rewrite Forall_forall in Hpos. now apply Hpos.
  - apply customized_with_durations.
  - generalize 0%nat. clear Hpos.
    induction base_tasks as [|base rest IH]; intros i; [reflexivity|].
    cbn [customized_with length]. rewrite Nat2Z.inj_succ.
    change (total_hours (?t :: ?l)) with (estimated_duration_hours t + total_hours l)%Z.
    rewrite IH. simpl. lia.
Qed.

Lemma negative_timeline_gives_four_hours_witness :
  exists customized,
    _customize_tasks learning_tasks "Learn Rust" None (PyInt (-1)) = Return customized /\
    estimated_duration_hours <$> customized = (fun _ => 4%Z) <$> learning_tasks /\
    total_hours customized = (4 * Z.of_nat (length learning_tasks))%Z.
Proof.
  apply (negative_timeline_gives_four_hours learning_tasks "Learn Rust" None (-1)).
  - lia.
  - vm_compute. reflexivity.
  - repeat constructor.
Defined.

(** An [int] timeline with [|timeline_weeks * 40| < 2 ** 1023] never
    takes the fallback: the stages return a plan with one task per
    archetype of the goal's catalog. *)
Theorem int_timeline_in_range_never_falls_back (goal : string) (weeks : Z)
    (additional_context : option string) :
  (- 2 ^ 1023 < weeks * 40 < 2 ^ 1023)%Z ->
  exists plan,
    breakdown_stages goal (PyInt weeks) additional_context = Return plan /\
    generate_task_breakdown goal (PyInt weeks) additional_context = plan /\
    length (tasks plan) = length (catalog_for goal additional_context).
Proof.
  intros Hrange.
  assert (Hc : _customize_tasks (catalog_for goal additional_context) goal
                 additional_context (PyInt weeks) =
               Return (customized_with
                         (scaled_or_baseline (PyInt weeks)
                            (length (catalog_for goal additional_context)))
                         goal additional_context 0
                         (catalog_for goal additional_context))).
  { unfold _customize_tasks. apply customize_from_returns.
    apply Forall_forall. intros base _.
    apply scale_duration_int_returns; [exact Hrange|].
    pose proof (catalog_length goal additional_context). lia. }
  eexists. split; [|split].
  - rewrite breakdown_stages_unfold, Hc. reflexivity.
  - unfold generate_task_breakdown.
    rewrite breakdown_stages_unfold, Hc. reflexivity.
  - cbn [tasks]. now rewrite add_dependencies_length, customized_with_length.
Qed.

Lemma int_timeline_in_range_never_falls_back_witness :
  exists plan,
    breakdown_stages "Open a bakery business" (PyInt 52) None = Return plan /\
    generate_task_breakdown "Open a bakery business" (PyInt 52) None = plan /\
    length (tasks plan) = length (catalog_for "Open a bakery business" None).
Proof.
  apply (int_timeline_in_range_never_falls_back "Open a bakery business" 52 None).
  split; vm_compute; reflexivity.
Defined.

(** A [str] timeline: the empty string behaves as no timeline, every
    other string gives the fallback plan with the message of the
    [TypeError], for every goal and context. *)
Theorem str_timeline_falls_back (goal s : string) (additional_context : option string) :
  generate_task_breakdown goal (PyStr s) additional_context =
  if String.eqb s ""
  then generate_task_breakdown goal PyNone additional_context
  else fallback_breakdown goal
         (TypeError "unsupported operand type(s) for /: 'str' and 'int'").
Proof.
  unfold generate_task_breakdown.
  destruct (String.eqb_spec s "") as [-> | Hs].
  - now rewrite (breakdown_stages_falsy goal (PyStr "") additional_context eq_refl).
  - now rewrite breakdown_stages_str.
Qed.

(** *** Durations against the timeline budget *)

Section Budget.

Local Open Scope Z_scope.

Lemma scaled_duration_within_share (weeks : Z) (count : nat) (baseline : Z) :
  (0 < count)%nat -> 4 * Z.of_nat count <= weeks * 40 ->
  Stated.scaled_duration weeks count baseline <= weeks * 40 / Z.of_nat count.
Proof.
  intros Hc Hshare. unfold Stated.scaled_duration.
  assert (4 <= weeks * 40 / Z.of_nat count)
    by (apply Z.div_le_lower_bound; lia).
  destruct (Z.ltb_spec (weeks * 40) (baseline * Z.of_nat count)); [lia|].
  apply Z.div_le_lower_bound; lia.
Qed.

Lemma scaled_duration_not_longer (weeks : Z) (count : nat) (baseline : Z) :
  (0 < count)%nat -> 0 < weeks ->
  4 <= baseline \/ baseline * Z.of_nat count <= 40 ->
  Stated.scaled_duration weeks count baseline <= baseline.
Proof.
  intros Hc Hw Hbase. unfold Stated.scaled_duration.
  destruct (Z.ltb_spec (weeks * 40) (baseline * Z.of_nat count)) as [Hlt | Hge]; [|lia].
  assert (weeks * 40 / Z.of_nat count < baseline)
    by (apply Z.div_lt_upper_bound; lia).
  lia.
Qed.

Lemma total_hours_customized_le (f g : Z -> Z) (goal : string)
    (context : option string) (rest : list archetype) :
  Forall (fun base => f (a_duration base) <= g (a_duration base)) rest ->
  forall i j,
    total_hours (customized_with f goal context i rest) <=
    total_hours (customized_with g goal context j rest).
Proof.
  induction 1 as [|base rest Hb _ IH]; intros i j; [reflexivity|].
  cbn [customized_with].
  change (total_hours (?t :: ?l)) with (estimated_duration_hours t + total_hours l).
  specialize (IH (S i) (S j)). simpl. lia.
Qed.

End Budget.

(** When the timeline leaves every task a share of at least 4 hours,
    the plan fits the timeline: for every archetype list the customized
    durations sum to at most [timeline_weeks * 40] hours. *)
Theorem plan_fits_timeline_budget (base_tasks : list archetype) (goal : string)
    (context : option string) (weeks : Z) :
  (0 < weeks)%Z -> (weeks * 40 < 2 ^ 1023)%Z ->
  Forall (fun base =>
            (a_duration base * Z.of_nat (length base_tasks) <= 2 ^ 53)%Z) base_tasks ->
  (4 * Z.of_nat (length base_tasks) <= weeks * 40)%Z ->
  exists customized,
    _customize_tasks base_tasks goal context (PyInt weeks) = Return customized /\
    (total_hours customized <= weeks * 40)%Z.
Proof.
  intros Hw Hmax Hsmall Hshare.
  set (count := length base_tasks) in *.
  exists (customized_with (Stated.scaled_duration weeks count) goal context 0 base_tasks).
  split.
  - unfold _customize_tasks. fold count. apply customize_from_returns.
    apply Forall_forall. intros base Hin.
    apply scale_duration_int; try assumption.
    + subst count. destruct base_tasks; [inversion Hin | simpl; lia].
    + rewrite Forall_forall in Hsmall. now apply Hsmall.
  - destruct (Nat.eq_dec count 0) as [Hz | Hnz].
    { apply nil_length_inv in Hz. rewrite Hz. simpl. lia. }
    assert (Hc : (0 < count)%nat) by lia.
    assert (Heach : Forall (fun t => (estimated_duration_hours t
                                      <= weeks * 40 / Z.of_nat count)%Z)
                      (customized_with (Stated.scaled_duration weeks count)
                                       goal context 0 base_tasks)).
    { apply Forall_forall. intros t Hin.
      assert (Hh : estimated_duration_hours t ∈
                   estimated_duration_hours <$>
                     customized_with (Stated.scaled_duration weeks count)
                                     goal context 0 base_tasks)
        by (apply list_elem_of_fmap; eauto).
      rewrite customized_with_durations in Hh.
      apply list_elem_of_fmap in Hh as (base & -> & _).
      now apply scaled_duration_within_share. }
    apply total_hours_bound in Heach. rewrite customized_with_length in Heach.
    fold count in Heach.
    pose proof (Z.mul_div_le (weeks * 40) (Z.of_nat count) ltac:(lia)). lia.
Qed.

Lemma plan_fits_timeline_budget_witness :
  exists customized,
    _customize_tasks product_launch_tasks "Launch a product" None (PyInt 2) =
      Return customized /\
    (total_hours customized <= 2 * 40)%Z.
Proof.
  apply (plan_fits_timeline_budget product_launch_tasks "Launch a product" None 2).
  - lia.
  - vm_compute. reflexivity.
  - repeat constructor; vm_compute; discriminate.
  - vm_compute. discriminate.
Defined.

(** The budget can be exceeded when the share is below 4 hours: one
    week on the twelve mobile-app tasks gives 46 hours. *)
Lemma one_week_exceeds_budget_example :
  total_hours (tasks (generate_task_breakdown "Build an app" (PyInt 1) None)) = 46%Z.
Proof. vm_compute. reflexivity. Qed.

(** A positive timeline never lengthens a task of a generated plan and
    never raises the day estimate above the one without a timeline. *)
Theorem positive_timeline_never_lengthens (goal : string) (weeks : Z)
    (additional_context : option string) :
  (0 < weeks)%Z -> (weeks * 40 < 2 ^ 1023)%Z ->
  exists plan,
    breakdown_stages goal (PyInt weeks) additional_context = Return plan /\
    Forall2 (fun t base => (estimated_duration_hours t <= a_duration base)%Z)
            (tasks plan) (catalog_for goal additional_context) /\
    (estimated_duration_days plan <=
     estimated_duration_days (generate_task_breakdown goal PyNone additional_context))%Z.
Proof.
  intros Hw Hmax.
  set (catalog := catalog_for goal additional_context).
  set (count := length catalog).
  pose proof (catalog_baselines goal additional_context) as Hbase.
  pose proof (catalog_length goal additional_context) as Hlen.
  fold catalog in Hbase, Hlen. fold count in Hbase, Hlen.
  assert (Hle : Forall (fun base => (Stated.scaled_duration weeks count (a_duration base)
                                     <= a_duration base)%Z) catalog).
  { eapply Forall_impl; [exact Hbase|]. simpl. intros base [_ Hb].
    apply scaled_duration_not_longer; [lia | lia | exact Hb]. }
  assert (Hc : _customize_tasks catalog goal additional_context (PyInt weeks) =
               Return (customized_with (Stated.scaled_duration weeks count)
                         goal additional_context 0 catalog)).
  { unfold _customize_tasks. fold count. apply customize_from_returns.
    eapply Forall_impl; [exact Hbase|]. simpl. intros base [[_ H60] _].
    apply scale_duration_int; try assumption; [lia|].
    transitivity (60 * 12)%Z; [nia | vm_compute; discriminate]. }
  eexists. split; [|split].
  - rewrite breakdown_stages_unfold. fold catalog. rewrite Hc. reflexivity.
  - cbn [tasks]. apply Forall2_fmap_l with (f := estimated_duration_hours)
      (P := fun h base => (h <= a_duration base)%Z).
    rewrite (add_dependencies_keeps estimated_duration_hours) by reflexivity.
    rewrite customized_with_durations.
    apply Forall2_fmap_l, Forall_Forall2_diag. exact Hle.
  - unfold generate_task_breakdown.
    rewrite breakdown_stages_unfold. fold catalog.
    rewrite (customize_tasks_falsy _ _ _ PyNone eq_refl).
    cbn [bind estimated_duration_days]. unfold estimated_days_of.
    rewrite !total_hours_add_dependencies.
    pose proof (total_hours_customized_le _ (fun d => d) goal additional_context
                  catalog Hle 0%nat 0%nat) as Htot.
    apply Z.max_le_compat_l. apply Z.div_le_mono; lia.
Qed.

Lemma positive_timeline_never_lengthens_witness :
  exists plan,
    breakdown_stages "Learn Rust" (PyInt 1) None = Return plan /\
    Forall2 (fun t base => (estimated_duration_hours t <= a_duration base)%Z)
            (tasks plan) (catalog_for "Learn Rust" None) /\
    (estimated_duration_days plan <=
     estimated_duration_days (generate_task_breakdown "Learn Rust" PyNone None))%Z.
Proof.
  apply (positive_timeline_never_lengthens "Learn Rust" 1 None).
  - lia.
  - vm_compute. reflexivity.
Defined.

(** *** Descriptions and reasoning *)

Lemma prefix_refl (s : string) : String.prefix s s = true.
Proof.
  induction s as [|c s IH]; [reflexivity|]. simpl.
  destruct (Ascii.ascii_dec c c); [exact IH | contradiction].
Qed.

Lemma str_in_refl (s : string) : str_in s s = true.
Proof.
  destruct s as [|c s]; [reflexivity|]. cbn [str_in]. now rewrite prefix_refl.
Qed.

(** Every description names the goal, in lower case, whatever the
    title. *)
Theorem description_mentions_goal (title goal : string) :
  str_in (lower goal) (_generate_task_description title goal) = true.
Proof.
  unfold _generate_task_description.
  destruct (List.find _ descriptions) as [[key [before after]]|].
  - apply str_in_app_r, str_in_app_l, str_in_refl.
  - do 3 apply str_in_app_r. apply str_in_app_l, str_in_refl.
Qed.

Lemma app_assoc_str (a b c : string) : (a +:+ b) +:+ c = a +:+ (b +:+ c).
Proof.
  induction a as [|x a IH]; [reflexivity|].
  rewrite !app_cons_str. now rewrite IH.
Qed.

Lemma prefix_head (a b : ascii) (s t : string) :
  String.prefix (String a s) (String b t) = true -> a = b.
Proof. simpl. now destruct (Ascii.ascii_dec a b). Qed.

Lemma prefix_app_refl (a b : string) : String.prefix a (a +:+ b) = true.
Proof. apply prefix_app, prefix_refl. Qed.

Lemma reasoning_starts_with_goal (goal goal_type : string) (task_count : nat)
    (timeline_weeks : timeline) :
  String.prefix ("Analyzed the goal '" +:+ goal)
                (_generate_reasoning goal goal_type task_count timeline_weeks) = true.
Proof.
  unfold _generate_reasoning.
  destruct (truthy timeline_weeks); cbn [app join];
    apply prefix_app; rewrite <- app_assoc_str; apply prefix_app_refl.
Qed.

(** The reasoning tells the two paths apart: it starts with "Analyzed
    the goal '" followed by the goal exactly when no stage raised, and
    with "Generated using local AI logic. Error: " exactly when the
    fallback was taken; the fallback has 4 tasks, a main-path plan 10 or
    12. *)
Theorem reasoning_tells_fallback_apart (goal : string) (timeline_weeks : timeline)
    (additional_context : option string) :
  let plan := generate_task_breakdown goal timeline_weeks additional_context in
  (String.prefix ("Analyzed the goal '" +:+ goal) (reasoning plan) = true /\
   String.prefix "Generated using" (reasoning plan) = false /\
   breakdown_stages goal timeline_weeks additional_context = Return plan /\
   (10 <= length (tasks plan) <= 12)%nat) \/
  (String.prefix "Generated using local AI logic. Error: " (reasoning plan) = true /\
   String.prefix "Analyzed" (reasoning plan) = false /\
   (exists e, breakdown_stages goal timeline_weeks additional_context = Raise e) /\
   length (tasks plan) = 4%nat).
Proof.
  intros plan. subst plan. unfold generate_task_breakdown.
  destruct (breakdown_stages goal timeline_weeks additional_context) as [plan|e] eqn:E.
  - left. rewrite breakdown_stages_unfold in E.
    destruct (_customize_tasks _ goal additional_context timeline_weeks)
      as [customized|] eqn:Ec; simpl in E; [|discriminate].
    injection E as <-. cbn [reasoning tasks].
    pose proof (reasoning_starts_with_goal goal
                  (_analyze_goal_type goal additional_context)
                  (length (_add_dependencies customized)) timeline_weeks) as Hstart.
    split; [exact Hstart|]. split; [|split; [reflexivity|]].
    + destruct (_generate_reasoning _ _ _ _) as [|c r]; [discriminate|].
      rewrite app_cons_str in Hstart. apply prefix_head in Hstart as <-.
      reflexivity.
    + rewrite add_dependencies_length.
      unfold _customize_tasks in Ec. apply customize_from_durations in Ec.
      apply Forall2_length in Ec. rewrite <- Ec. apply catalog_length.
  - right. cbn [fallback_breakdown reasoning tasks].
    split; [apply prefix_app_refl|]. split; [reflexivity|].
    split; [eauto | reflexivity].
Qed.

(** *** Complexity analysis *)


(** *** A title the substitution damages *)

(** The substitution replaces "Product" inside "Production" too: for a
    goal that mentions "web" (and neither "app" nor "mobile") and is
    classified product_launch, the tenth task of the plan is titled
    "Deploy to Websiteion", and the second "Define Website
    Requirements". *)
Theorem web_goal_mangles_production (goal : string) (timeline_weeks : timeline)
    (additional_context : option string) (plan : breakdown) :
  str_in "app" (lower goal) || str_in "mobile" (lower goal) = false ->
  str_in "web" (lower goal) = true ->
  _analyze_goal_type goal additional_context = "product_launch" ->
  breakdown_stages goal timeline_weeks additional_context = Return plan ->
  title <$> tasks plan !! 9%nat = Some "Deploy to Websiteion" /\
  title <$> tasks plan !! 1%nat = Some "Define Website Requirements".
Proof.
  intros Happ Hweb Htype Hret.
  rewrite breakdown_stages_unfold in Hret. unfold catalog_for in Hret.
  rewrite Htype in Hret.
  change (default product_launch_tasks (task_templates !! "product_launch"))
    with product_launch_tasks in Hret.
  destruct (_customize_tasks product_launch_tasks goal additional_context timeline_weeks)
    as [customized|] eqn:Ec; simpl in Hret; [|discriminate].
  injection Hret as <-. cbn [tasks].
  rewrite <- !list_lookup_fmap.
  rewrite (add_dependencies_keeps title) by reflexivity.
  unfold _customize_tasks in Ec. apply customize_from_titles in Ec. rewrite Ec.
  unfold product_launch_tasks. cbn [fmap list_fmap lookup list_lookup a_title].
  unfold _customize_task_title. rewrite Happ, Hweb, orb_true_r.
  split; reflexivity.
Qed.

Lemma web_goal_mangles_production_witness :
  title <$> tasks (generate_task_breakdown "Launch my web shop" PyNone None) !! 9%nat
  = Some "Deploy to Websiteion".
Proof.
  apply (web_goal_mangles_production "Launch my web shop" PyNone None
           (generate_task_breakdown "Launch my web shop" PyNone None));
    vm_compute; reflexivity.
Defined.
